(** * bigfastapi: bank accounts, customers and the country schema table

    A shallow embedding of [bigfastapi/banks.py] and
    [bigfastapi/models/customer_models.py].

    Conventions of the embedding.
    - A table is the list of its rows in row order; a column holds a value
      (SQL NULL is not represented).
    - A [datetime] is an integer time stamp.
    - Generated identifiers ([uuid4().hex], [generate_short_id]) and the
      clock ([datetime.now()]) are arguments of the operation that uses them.
    - An ORM object is designated by its primary key: two names bound to the
      row of one primary key are one object of the session (identity map).
    - A handler is a computation over the session that returns a value or
      raises. *)

From Stdlib Require Import ZArith List Bool Ascii String Sorting.Sorted Sorting.Permutation Lia.
From stdpp Require Import base option gmap strings.
Import ListNotations.

Local Open Scope string_scope.
Local Open Scope Z_scope.

(** ** Exceptions and outcomes *)

Inductive exn : Type :=
| HTTPException (status_code : Z) (detail : string)
| KeyError (key : string)
| TypeError
| ValidationError
| CompileError
| ArgumentError
| InvalidRequestError.

Definition HTTP_403_FORBIDDEN : Z := 403.
Definition HTTP_404_NOT_FOUND : Z := 404.

Inductive outcome (A : Type) : Type :=
| Ok (a : A)
| Raise (e : exn).
Arguments Ok {A} a.
Arguments Raise {A} e.

Definition is_forbidden {A} (o : outcome A) : bool :=
  match o with
  | Raise (HTTPException c _) => c =? HTTP_403_FORBIDDEN
  | _ => false
  end.

Definition is_not_found {A} (o : outcome A) : bool :=
  match o with
  | Raise (HTTPException c _) => c =? HTTP_404_NOT_FOUND
  | _ => false
  end.

(** ** Request schemas ([bigfastapi.schemas]) *)

Module users_schemas.
(** Modelled from the spec: the authenticated principal of
    [users_schemas.User]; the handlers read its [id] only. *)
Record User : Type := { id : string }.
End users_schemas.

Module bank_schemas.
(** Modelled from the spec: the request body [bank_schemas.AddBank], with
    the attributes the handlers read from it. *)
Record AddBank : Type := {
  organisation_id : string;
  account_number : string;
  bank_name : string;
  recipient_name : string;
  country : string;
  sort_code : string;
  swift_code : string;
  bank_address : string;
  is_preferred : bool;
  account_type : string;
  aba_routing_number : string;
  iban : string;
  date_created : Z
}.
End bank_schemas.

(** ** The bank table and the ORM session ([bigfastapi.models.bank_models]) *)

Module bank_models.

(** Modelled from the spec: the class [BankModels] (outside the source
    tree), with the attributes of a bank account of section 3; their names
    are those [add_bank_detail] passes to the constructor, and [is_deleted]
    is the soft-delete flag the handlers filter on. *)
Record BankModels : Type := {
  id : string;
  organisation_id : string;
  creator_id : string;
  account_number : string;
  bank_name : string;
  recipient_name : string;
  country : string;
  sort_code : string;
  swift_code : string;
  bank_address : string;
  is_preferred : bool;
  account_type : string;
  aba_routing_number : string;
  iban : string;
  date_created : Z;
  is_deleted : bool
}.

(** [obj.is_preferred = v] *)
Definition set_is_preferred (v : bool) (o : BankModels) : BankModels :=
  {| id := id o; organisation_id := organisation_id o;
     creator_id := creator_id o; account_number := account_number o;
     bank_name := bank_name o; recipient_name := recipient_name o;
     country := country o; sort_code := sort_code o;
     swift_code := swift_code o; bank_address := bank_address o;
     is_preferred := v; account_type := account_type o;
     aba_routing_number := aba_routing_number o; iban := iban o;
     date_created := date_created o; is_deleted := is_deleted o |}.

(** [obj.is_deleted = v] *)
Definition set_is_deleted (v : bool) (o : BankModels) : BankModels :=
  {| id := id o; organisation_id := organisation_id o;
     creator_id := creator_id o; account_number := account_number o;
     bank_name := bank_name o; recipient_name := recipient_name o;
     country := country o; sort_code := sort_code o;
     swift_code := swift_code o; bank_address := bank_address o;
     is_preferred := is_preferred o; account_type := account_type o;
     aba_routing_number := aba_routing_number o; iban := iban o;
     date_created := date_created o; is_deleted := v |}.

(** The session of one request.
    - [committed]: the table as of the last commit; what other requests see.
    - [rows]: the table as this transaction sees it (committed rows and
      flushed changes).
    - [identity_map]: the objects loaded in the session, with their
      attribute values in memory, which may differ from their row until
      the next flush.
    - [new]: objects passed to [db.add] and not flushed yet.
    - [memberships]: the (user id, organization id) pairs of the
      organization membership records.
    - [autoflush]: the session option of that name. The session factory
      ([bigfastapi.db.database]) is outside the source tree, so the option
      is a parameter of the session. *)
Record Session : Type := {
  autoflush : bool;
  memberships : list (string * string);
  committed : list BankModels;
  rows : list BankModels;
  identity_map : list BankModels;
  new : list BankModels
}.

(** The session [get_db] hands to a handler. *)
Definition open_session (af : bool) (ms : list (string * string))
    (table : list BankModels) : Session :=
  {| autoflush := af; memberships := ms; committed := table;
     rows := table; identity_map := []; new := [] |}.

Definition with_rows (rs : list BankModels) (s : Session) : Session :=
  {| autoflush := autoflush s; memberships := memberships s;
     committed := committed s; rows := rs;
     identity_map := identity_map s; new := new s |}.

Definition with_identity_map (im : list BankModels) (s : Session) : Session :=
  {| autoflush := autoflush s; memberships := memberships s;
     committed := committed s; rows := rows s;
     identity_map := im; new := new s |}.

Definition with_new (n : list BankModels) (s : Session) : Session :=
  {| autoflush := autoflush s; memberships := memberships s;
     committed := committed s; rows := rows s;
     identity_map := identity_map s; new := n |}.

(** Computations over the session. *)
Definition Db (A : Type) : Type := Session -> outcome A * Session.

Definition ret {A} (a : A) : Db A := fun s => (Ok a, s).
Definition raise {A} (e : exn) : Db A := fun s => (Raise e, s).
Definition bind {A B} (m : Db A) (k : A -> Db B) : Db B :=
  fun s => match m s with
           | (Ok a, s') => k a s'
           | (Raise e, s') => (Raise e, s')
           end.

Declare Scope db_scope.
Delimit Scope db_scope with db.
Notation "x <- m ;; k" := (bind m (fun x => k))
  (at level 100, m at next level, right associativity) : db_scope.
Notation "m ;; k" := (bind m (fun _ => k))
  (at level 100, right associativity) : db_scope.
Local Open Scope db_scope.

(** The row (or object) of primary key [i] in a list. *)
Definition by_id (i : string) (l : list BankModels) : option BankModels :=
  List.find (fun r => String.eqb (id r) i) l.

(** The attribute values of the object of primary key [i]: those in memory
    when the object is loaded, else those of its row. *)
Definition state_of (i : string) (s : Session) : option BankModels :=
  match by_id i (identity_map s) with
  | Some o => Some o
  | None => by_id i (rows s)
  end.

(** Put object [o] in a list of objects, replacing the one of the same
    primary key. *)
Fixpoint store (o : BankModels) (l : list BankModels) : list BankModels :=
  match l with
  | [] => [o]
  | r :: l' => if String.eqb (id r) (id o) then o :: l' else r :: store o l'
  end.

(** Reading the attributes of an object. *)
Definition getattr (i : string) : Db BankModels :=
  fun s => match state_of i s with
           | Some o => (Ok o, s)
           | None => (Raise InvalidRequestError, s)
           end.

(** Assigning attributes of an object: the change stays in memory. *)
Definition setattr (i : string) (f : BankModels -> BankModels) : Db unit :=
  fun s => match state_of i s with
           | Some o => (Ok tt, with_identity_map (store (f o) (identity_map s)) s)
           | None => (Raise InvalidRequestError, s)
           end.

(** The UPDATE of the rows whose object is loaded. *)
Definition write_back (objs table : list BankModels) : list BankModels :=
  List.map (fun r => match by_id (id r) objs with
                     | Some o => o
                     | None => r
                     end) table.

(** [db.flush()]: loaded objects are written to their rows and added
    objects are inserted. *)
Definition flush (s : Session) : Session :=
  with_new []
    (with_rows (write_back (identity_map s) (rows s) ++ new s) s).

(** [db.commit()]: flush, make the rows durable and expire the objects. *)
Definition commit : Db unit :=
  fun s => let s' := flush s in
           (Ok tt,
            {| autoflush := autoflush s'; memberships := memberships s';
               committed := rows s'; rows := rows s';
               identity_map := []; new := [] |}).

(** [db.refresh(obj)]: the attributes of the object are read again from
    its row. *)
Definition refresh (i : string) : Db unit :=
  fun s => (Ok tt,
            with_identity_map
              (List.filter (fun o => negb (String.eqb (id o) i)) (identity_map s)) s).

(** [db.add(obj)] *)
Definition add (o : BankModels) : Db unit :=
  fun s => (Ok tt, with_new (new s ++ [o]) s).

(** [db.query(BankModels).filter(p).first()]: the query runs on the rows
    (after a flush when the session autoflushes) and yields the object of
    the first row that satisfies [p]. *)
Definition query_first (p : BankModels -> bool) : Db (option string) :=
  fun s => let s' := if autoflush s then flush s else s in
           (Ok (option_map id (List.find p (rows s'))), s').

(** [db.query(BankModels).filter(p)], iterated: the objects of the rows
    that satisfy [p], in row order. *)
Definition query_all (p : BankModels -> bool) : Db (list string) :=
  fun s => let s' := if autoflush s then flush s else s in
           (Ok (List.map id (List.filter p (rows s'))), s').

(** Modelled from the spec: [bank_schemas.BankResponse] (outside the source
    tree) carries the attributes of the record; [from_orm] reads them from
    the object. *)
Definition BankResponse : Type := BankModels.
Definition from_orm (i : string) : Db BankResponse := getattr i.

(** Modelled from the spec: [fetch_bank] of [bank_models] (outside the
    source tree). "fails with NotFound if no non-deleted record with that
    id exists"; the lookup is not scoped by organization. *)
Definition fetch_bank (user : users_schemas.User) (bank_id : string) : Db string :=
  bank <- query_first (fun r => String.eqb (id r) bank_id && negb (is_deleted r)) ;;
  match bank with
  | None => raise (HTTPException HTTP_404_NOT_FOUND "This bank detail does not exist here")
  | Some b => ret b
  end.

(** Modelled from the spec: [add_bank] of [bank_models] (outside the source
    tree). "assigns id, persists, returns the new record"; the id is
    assigned by the caller. *)
Definition add_bank (user : users_schemas.User) (addbank : BankModels) : Db BankResponse :=
  add addbank ;;
  commit ;;
  refresh (id addbank) ;;
  from_orm (id addbank).

(** Modelled from the spec: [update_bank] of [bank_models] (outside the
    source tree): the primary update of the record, committed, and the
    record returned. *)
Definition update_bank (addBank : string) : Db BankResponse :=
  commit ;;
  refresh addBank ;;
  from_orm addBank.

End bank_models.

(** The membership records hold the pair of the user and the organization. *)
Definition has_membership (ms : list (string * string))
    (user_id organization_id : string) : bool :=
  existsb (fun m => String.eqb (fst m) user_id && String.eqb (snd m) organization_id) ms.

(** Modelled from the spec: [is_organization_member] of
    [models.organisation_models] (outside the source tree).
    "is_member(user_id, organization_id) -> bool": decides membership from
    the membership records, which it does not change. *)
Definition is_organization_member (user_id organization_id : string)
    : bank_models.Db bool :=
  fun s => (Ok (has_membership (bank_models.memberships s) user_id organization_id), s).

(** ** The bank handlers ([bigfastapi/banks.py]) *)

Module banks.
Import bank_models.
Local Open Scope db_scope.

Definition forbidden {A} (detail : string) : Db A :=
  raise (HTTPException HTTP_403_FORBIDDEN detail).

Fixpoint mapM {A B} (f : A -> Db B) (l : list A) : Db (list B) :=
  match l with
  | [] => ret []
  | x :: l' => y <- f x ;; ys <- mapM f l' ;; ret (y :: ys)
  end.

(** [fastapi_pagination]: the page parameters come with the request, the
    page is the slice [offset : offset + size] with [offset = size * (page - 1)]. *)
Record Params : Type := { page : nat; size : nat }.

Record Page (A : Type) : Type := {
  items : list A;
  total : nat;
  page_params : Params
}.
Arguments items {A} _.
Arguments total {A} _.
Arguments page_params {A} _.

Definition paginate {A} (params : Params) (sequence : list A) : Page A :=
  {| items := firstn (size params) (skipn (size params * (page params - 1)) sequence);
     total := List.length sequence;
     page_params := params |}.

Record JSONResponse : Type := { content_detail : string; status_code : Z }.

(** Lines 44-58 of [add_bank_detail]: the object built from the request;
    [new_id] is the value of [uuid4().hex]. A new row takes the default of
    the soft-delete column. *)
Definition new_bank (new_id : string) (bank : bank_schemas.AddBank)
    (user : users_schemas.User) : BankModels :=
  {| id := new_id;
     organisation_id := bank_schemas.organisation_id bank;
     creator_id := users_schemas.id user;
     account_number := bank_schemas.account_number bank;
     bank_name := bank_schemas.bank_name bank;
     recipient_name := bank_schemas.recipient_name bank;
     country := bank_schemas.country bank;
     sort_code := bank_schemas.sort_code bank;
     swift_code := bank_schemas.swift_code bank;
     bank_address := bank_schemas.bank_address bank;
     is_preferred := bank_schemas.is_preferred bank;
     account_type := bank_schemas.account_type bank;
     aba_routing_number := bank_schemas.aba_routing_number bank;
     iban := bank_schemas.iban bank;
     date_created := bank_schemas.date_created bank;
     is_deleted := false |}.

Definition add_bank_detail (new_id : string) (bank : bank_schemas.AddBank)
    (user : users_schemas.User) : Db BankResponse :=
  is_store_member <- is_organization_member (users_schemas.id user)
                       (bank_schemas.organisation_id bank) ;;
  if negb is_store_member
  then forbidden "You are not allowed to add a bank account to this organization"
  else
    let addbank := new_bank new_id bank user in
    add_bank user addbank.

(** [get_organization_bank_accounts]; [page_size] and [page_number] are
    arguments the body does not read. *)
Definition get_organization_bank_accounts (params : Params)
    (organization_id : string) (user : users_schemas.User)
    (page_size page_number : nat) : Db (Page BankResponse) :=
  is_store_member <- is_organization_member (users_schemas.id user) organization_id ;;
  if negb is_store_member
  then forbidden "You are not allowed to access this resource"
  else
    banks <- query_all (fun r => String.eqb (organisation_id r) organization_id
                                 && Bool.eqb (is_deleted r) false) ;;
    banks_list <- mapM from_orm banks ;;
    ret (paginate params banks_list).

(** [get_single_bank]; [org_id] is an argument the body does not read. *)
Definition get_single_bank (org_id bank_id : string)
    (user : users_schemas.User) : Db BankResponse :=
  bank <- fetch_bank user bank_id ;;
  from_orm bank.

(** Lines 131-141 of [update_bank_details]: the eleven assignments to
    [bank_account]. *)
Definition assign_bank (bank : bank_schemas.AddBank) (o : BankModels) : BankModels :=
  {| id := id o;
     organisation_id := organisation_id o;
     creator_id := creator_id o;
     account_number := bank_schemas.account_number bank;
     bank_name := bank_schemas.bank_name bank;
     recipient_name := bank_schemas.recipient_name bank;
     country := bank_schemas.country bank;
     sort_code := bank_schemas.sort_code bank;
     swift_code := bank_schemas.swift_code bank;
     bank_address := bank_schemas.bank_address bank;
     is_preferred := bank_schemas.is_preferred bank;
     account_type := bank_schemas.account_type bank;
     aba_routing_number := bank_schemas.aba_routing_number bank;
     iban := bank_schemas.iban bank;
     date_created := date_created o;
     is_deleted := is_deleted o |}.

Definition update_bank_details (bank_id : string) (bank : bank_schemas.AddBank)
    (user : users_schemas.User) : Db BankResponse :=
  is_store_member <- is_organization_member (users_schemas.id user)
                       (bank_schemas.organisation_id bank) ;;
  if negb is_store_member
  then forbidden "You are not allowed to carry out this operation"
  else
    bank_account <- fetch_bank user bank_id ;;
    setattr bank_account (assign_bank bank) ;;
    (if bank_schemas.is_preferred bank
     then
       current_preferred_bank <- query_first (fun r => Bool.eqb (is_preferred r) true) ;;
       match current_preferred_bank with
       | Some cur =>
           setattr cur (set_is_preferred false) ;;
           commit ;;
           refresh cur
       | None => ret tt
       end
     else ret tt) ;;
    update_bank bank_account.

Definition delete_bank (bank_id : string) (user : users_schemas.User)
    : Db JSONResponse :=
  bank <- fetch_bank user bank_id ;;
  o <- getattr bank ;;
  is_store_member <- is_organization_member (users_schemas.id user)
                       (organisation_id o) ;;
  if negb is_store_member
  then forbidden "You are not allowed to carry out this operation"
  else
    setattr bank (set_is_deleted true) ;;
    commit ;;
    refresh bank ;;
    ret {| content_detail := "bank details successfully deleted"; status_code := 200 |}.

(** *** Bank service: the country schema table *)

(** A value of the JSON document [data/bank.json]. *)
#[warnings="-register-all"] Inductive json : Type :=
| JNull
| JBool (b : bool)
| JNum (z : Z)
| JStr (s : string)
| JList (l : list json)
| JDict (d : gmap string json).

(** [value[key]] for a string key. *)
Definition getitem (value : json) (key : string) : outcome json :=
  match value with
  | JDict d => match d !! key with
               | Some v => Ok v
               | None => Raise (KeyError key)
               end
  | _ => Raise TypeError
  end.

(** [d[key]] on the table itself. *)
Definition table_getitem (country_info : gmap string json) (key : string)
    : outcome json :=
  match country_info !! key with
  | Some v => Ok v
  | None => Raise (KeyError key)
  end.

(** The truth value of an optional string argument. *)
Definition truthy (info : option string) : bool :=
  match info with
  | None => false
  | Some s => negb (String.eqb s "")
  end.

Definition contains (country_info : gmap string json) (country : string) : bool :=
  bool_decide (is_Some (country_info !! country)).

(** [entry[info]] for the optional argument [info]. *)
Definition getitem_info (entry : outcome json) (info : option string) : outcome json :=
  match entry with
  | Ok value =>
      match info with
      | Some key => getitem value key
      | None => Raise (KeyError "None")
      end
  | Raise e => Raise e
  end.

Definition is_None (info : option string) : bool :=
  match info with
  | None => true
  | Some _ => false
  end.

(** [BankValidator.get_country_data]; [country_info] is the table loaded
    from [data/bank.json], a file outside the source tree. *)
Definition get_country_data (country_info : gmap string json)
    (country : string) (info : option string) : outcome json :=
  if negb (contains country_info country) && is_None info then
    table_getitem country_info "others"
  else if negb (contains country_info country) then
    getitem_info (table_getitem country_info "others") info
  else if truthy info then
    getitem_info (table_getitem country_info country) info
  else
    table_getitem country_info country.

(** [BankValidator.validate_supported_country] *)
Definition validate_supported_country (country_info : gmap string json)
    (country : string) : bool :=
  existsb (fun data => String.eqb data country) (map fst (map_to_list country_info)).

End banks.

(** ** Customers ([bigfastapi/models/customer_models.py]) *)

Module customer_schemas.
(** Modelled from the spec: the request body [customer_schemas.CustomerUpdate]
    (outside the source tree). Every attribute may be absent ([None]) or
    present; [put_customer] tests each one for its truth value. *)
Record CustomerUpdate : Type := {
  first_name : option string;
  last_name : option string;
  unique_id : option string;
  email : option string;
  phone_number : option string;
  location : option string;
  business_name : option string;
  gender : option string;
  age : option Z;
  postal_code : option string;
  language : option string;
  country : option string;
  city : option string;
  region : option string;
  country_code : option string
}.
End customer_schemas.

Module customer_models.

Record Customer : Type := {
  id : string;
  customer_id : string;
  organization_id : string;
  email : string;
  first_name : string;
  last_name : string;
  unique_id : string;
  phone_number : string;
  business_name : string;
  location : string;
  gender : string;
  age : Z;
  postal_code : string;
  language : string;
  country : string;
  city : string;
  region : string;
  auto_reminder : bool;
  country_code : string;
  is_deleted : bool;
  date_created : Z;
  last_updated : Z
}.

(** The columns of the class, by attribute. *)
Inductive column : Type :=
| c_id | c_customer_id | c_organization_id | c_email | c_first_name
| c_last_name | c_unique_id | c_phone_number | c_business_name | c_location
| c_gender | c_age | c_postal_code | c_language | c_country | c_city
| c_region | c_auto_reminder | c_country_code | c_is_deleted
| c_date_created | c_last_updated.

Definition column_name (c : column) : string :=
  match c with
  | c_id => "id" | c_customer_id => "customer_id"
  | c_organization_id => "organization_id" | c_email => "email"
  | c_first_name => "first_name" | c_last_name => "last_name"
  | c_unique_id => "unique_id" | c_phone_number => "phone_number"
  | c_business_name => "business_name" | c_location => "location"
  | c_gender => "gender" | c_age => "age" | c_postal_code => "postal_code"
  | c_language => "language" | c_country => "country" | c_city => "city"
  | c_region => "region" | c_auto_reminder => "auto_reminder"
  | c_country_code => "country_code" | c_is_deleted => "is_deleted"
  | c_date_created => "date_created" | c_last_updated => "last_updated"
  end.

Definition columns : list column :=
  [c_id; c_customer_id; c_organization_id; c_email; c_first_name;
   c_last_name; c_unique_id; c_phone_number; c_business_name; c_location;
   c_gender; c_age; c_postal_code; c_language; c_country; c_city;
   c_region; c_auto_reminder; c_country_code; c_is_deleted;
   c_date_created; c_last_updated].

Definition column_of_name (name : string) : option column :=
  List.find (fun c => String.eqb (column_name c) name) columns.

Definition column_eqb (a b : column) : bool :=
  String.eqb (column_name a) (column_name b).

(** A value held by a column. *)
Inductive value : Type :=
| VBool (b : bool)
| VInt (z : Z)
| VStr (s : string).

(** [obj.<column>] *)
Definition read (c : column) (o : Customer) : value :=
  match c with
  | c_id => VStr (id o) | c_customer_id => VStr (customer_id o)
  | c_organization_id => VStr (organization_id o) | c_email => VStr (email o)
  | c_first_name => VStr (first_name o) | c_last_name => VStr (last_name o)
  | c_unique_id => VStr (unique_id o) | c_phone_number => VStr (phone_number o)
  | c_business_name => VStr (business_name o) | c_location => VStr (location o)
  | c_gender => VStr (gender o) | c_age => VInt (age o)
  | c_postal_code => VStr (postal_code o) | c_language => VStr (language o)
  | c_country => VStr (country o) | c_city => VStr (city o)
  | c_region => VStr (region o) | c_auto_reminder => VBool (auto_reminder o)
  | c_country_code => VStr (country_code o) | c_is_deleted => VBool (is_deleted o)
  | c_date_created => VInt (date_created o) | c_last_updated => VInt (last_updated o)
  end.

Definition pick_str (c k : column) (v : value) (old : string) : string :=
  if column_eqb c k then match v with VStr s => s | _ => old end else old.
Definition pick_int (c k : column) (v : value) (old : Z) : Z :=
  if column_eqb c k then match v with VInt z => z | _ => old end else old.
Definition pick_bool (c k : column) (v : value) (old : bool) : bool :=
  if column_eqb c k then match v with VBool b => b | _ => old end else old.

(** [obj.<column> = v]: the attribute of column [c] takes the value, every
    other attribute keeps its own. *)
Definition setattr (c : column) (v : value) (o : Customer) : Customer :=
  {| id := pick_str c c_id v (id o);
     customer_id := pick_str c c_customer_id v (customer_id o);
     organization_id := pick_str c c_organization_id v (organization_id o);
     email := pick_str c c_email v (email o);
     first_name := pick_str c c_first_name v (first_name o);
     last_name := pick_str c c_last_name v (last_name o);
     unique_id := pick_str c c_unique_id v (unique_id o);
     phone_number := pick_str c c_phone_number v (phone_number o);
     business_name := pick_str c c_business_name v (business_name o);
     location := pick_str c c_location v (location o);
     gender := pick_str c c_gender v (gender o);
     age := pick_int c c_age v (age o);
     postal_code := pick_str c c_postal_code v (postal_code o);
     language := pick_str c c_language v (language o);
     country := pick_str c c_country v (country o);
     city := pick_str c c_city v (city o);
     region := pick_str c c_region v (region o);
     auto_reminder := pick_bool c c_auto_reminder v (auto_reminder o);
     country_code := pick_str c c_country_code v (country_code o);
     is_deleted := pick_bool c c_is_deleted v (is_deleted o);
     date_created := pick_int c c_date_created v (date_created o);
     last_updated := pick_int c c_last_updated v (last_updated o) |}.

(** *** SQL expressions of the queries *)

(** The lower-case form of an ASCII letter; any other character is itself. *)
Definition lower (a : ascii) : ascii :=
  let n := nat_of_ascii a in
  if (Nat.leb 65 n && Nat.leb n 90)%bool then ascii_of_nat (n + 32) else a.

(** Two characters as LIKE compares them. The database is chosen by the
    session factory ([bigfastapi.db.database], outside the source tree):
    with [nocase] the ASCII letters are compared without their case (the
    LIKE of SQLite), without it characters are compared as they are (the
    LIKE of SQLite under [case_sensitive_like], and of PostgreSQL). *)
Definition char_eqb (nocase : bool) (a b : ascii) : bool :=
  if nocase then Ascii.eqb (lower a) (lower b) else Ascii.eqb a b.

(** [value LIKE pattern]: [%] stands for any run of characters, [_] for any
    one character, any other character for itself as [char_eqb] compares.
    The queries give LIKE no escape character, and none is modelled: a
    backslash stands for itself, as in SQLite. *)
Fixpoint like (nocase : bool) (pattern : string) : string -> bool :=
  match pattern with
  | EmptyString => fun s => match s with EmptyString => true | _ => false end
  | String p pattern' =>
      if Ascii.eqb p "%" then
        fix any (s : string) : bool :=
          like nocase pattern' s
          || match s with
             | EmptyString => false
             | String _ s' => any s'
             end
      else if Ascii.eqb p "_" then
        fun s => match s with
                 | EmptyString => false
                 | String _ s' => like nocase pattern' s'
                 end
      else
        fun s => match s with
                 | EmptyString => false
                 | String a s' => char_eqb nocase p a && like nocase pattern' s'
                 end
  end.

(** The order of the values of a column. *)
Definition value_leb (a b : value) : bool :=
  match a, b with
  | VBool x, VBool y => implb x y
  | VInt x, VInt y => x <=? y
  | VStr x, VStr y => String.leb x y
  | VBool _, _ => true
  | VInt _, VStr _ => true
  | _, _ => false
  end.

(** [ORDER BY]: the rows in the order [leb], rows that compare equal in
    row order. *)
Fixpoint insert_row (leb : Customer -> Customer -> bool) (x : Customer)
    (l : list Customer) : list Customer :=
  match l with
  | [] => [x]
  | y :: l' => if leb x y then x :: l else y :: insert_row leb x l'
  end.

Fixpoint order_by (leb : Customer -> Customer -> bool) (l : list Customer)
    : list Customer :=
  match l with
  | [] => []
  | x :: l' => insert_row leb x (order_by leb l')
  end.

Definition asc (c : column) (a b : Customer) : bool :=
  value_leb (read c a) (read c b).
Definition desc (c : column) (a b : Customer) : bool :=
  value_leb (read c b) (read c a).

(** [.offset(offset).limit(size)] *)
Definition offset_limit (offset size : nat) (l : list Customer) : list Customer :=
  firstn size (skipn offset l).

(** Modelled from the spec: [customer_schemas.Customer] (outside the source
    tree) carries the attributes of the record. *)
Definition from_orm (o : Customer) : Customer := o.

(** *** Database services *)

Definition fetch_customers (organization_id : string) (offset size : nat)
    (db : list Customer) : list Customer :=
  let customers :=
    offset_limit offset size
      (order_by (desc c_date_created)
         (List.filter (fun r => Bool.eqb (is_deleted r) false)
            (List.filter (fun r => String.eqb (customer_models.organization_id r) organization_id)
               db))) in
  List.map from_orm customers.

(** [search_customers]; [nocase] is the way the LIKE of the database
    compares letters. *)
Definition search_customers (nocase : bool) (organization_id search_value : string)
    (offset size : nat) (db : list Customer) : list Customer :=
  let search_text := "%" ++ search_value ++ "%" in
  let customers_by_name :=
    offset_limit offset size
      (order_by (desc c_date_created)
         (List.filter (fun r => like nocase search_text (first_name r)
                                || like nocase search_text (last_name r))
            (List.filter (fun r => String.eqb (customer_models.organization_id r) organization_id
                                   && Bool.eqb (is_deleted r) false)
               db))) in
  let map_names := List.map from_orm customers_by_name in
  let customers_by_id :=
    offset_limit offset size
      (order_by (desc c_date_created)
         (List.filter (fun r => like nocase search_value (unique_id r)
                                || like nocase search_value (customer_id r))
            (List.filter (fun r => String.eqb (customer_models.organization_id r) organization_id
                                   && Bool.eqb (is_deleted r) false)
               db))) in
  let map_ids := List.map from_orm customers_by_id in
  map_names ++ map_ids.

(** What [getattr(Customer, name, default)] can yield: a column, a plain
    string, [None], or another object. *)
Inductive class_attr : Type :=
| Column (c : column)
| Str (s : string)
| NoneValue
| Other.

(** [getattr(Customer, name, default)]. The class body declares the columns
    and [__tablename__] and has no docstring, so its [__doc__] is [None];
    its name and module are strings. [inherited] tells the other names the
    class has, from [object] and from [Base], which is declared outside the
    source tree; none of their values is a column, a string or [None]. *)
Definition getattr (inherited : string -> bool) (name : string)
    (default : class_attr) : class_attr :=
  match column_of_name name with
  | Some c => Column c
  | None =>
      if String.eqb name "__tablename__" then Str "customer"
      else if String.eqb name "__doc__" then NoneValue
      else if String.eqb name "__name__" || String.eqb name "__qualname__"
      then Str "Customer"
      else if String.eqb name "__module__" then Str "bigfastapi.models.customer_models"
      else if inherited name then Other
      else default
  end.

(** The argument of [order_by], plain or under [desc], as the ORDER BY of
    the query: a column stands for itself; a string is looked up among the
    column names of the query; [None] leaves the query without an order
    ([order_by(None)] cancels the ordering, [desc(None)] orders by the
    constant NULL); anything else is not an SQL expression. *)
Definition order_by_column (a : class_attr) : outcome (option column) :=
  match a with
  | Column c => Ok (Some c)
  | Str s => match column_of_name s with
             | Some c => Ok (Some c)
             | None => Raise CompileError
             end
  | NoneValue => Ok None
  | Other => Raise ArgumentError
  end.

(** The rows of a query with the ORDER BY [o]; without an order they come
    in row order. *)
Definition ordered (o : option column) (direction : column -> Customer -> Customer -> bool)
    (l : list Customer) : list Customer :=
  match o with
  | Some c => order_by (direction c) l
  | None => l
  end.

Definition sort_customers (inherited : string -> bool)
    (organization_id sort_key : string) (offset size : nat)
    (sort_dir : string) (db : list Customer) : outcome (list Customer) :=
  if String.eqb sort_dir "desc" then
    match order_by_column (getattr inherited sort_key (Str "first_name")) with
    | Ok o =>
        Ok (List.map from_orm
              (offset_limit offset size
                 (ordered o desc
                    (List.filter (fun r => Bool.eqb (is_deleted r) false)
                       (List.filter (fun r => String.eqb (customer_models.organization_id r) organization_id)
                          db)))))
    | Raise e => Raise e
    end
  else
    match order_by_column (getattr inherited sort_key (Str "first_name")) with
    | Ok o =>
        Ok (List.map from_orm
              (offset_limit offset size
                 (ordered o asc
                    (List.filter (fun r => Bool.eqb (is_deleted r) false)
                       (List.filter (fun r => String.eqb (customer_models.organization_id r) organization_id)
                          db)))))
    | Raise e => Raise e
    end.

(** The truth value of an attribute of the request body. *)
Definition truthy_str (x : option string) : bool :=
  match x with
  | Some s => negb (String.eqb s "")
  | None => false
  end.
Definition truthy_int (x : option Z) : bool :=
  match x with
  | Some z => negb (z =? 0)
  | None => false
  end.

(** [if x: obj.<c> = x] *)
Definition if_str (x : option string) (c : column) (o : Customer) : Customer :=
  match x with
  | Some s => if truthy_str x then setattr c (VStr s) o else o
  | None => o
  end.
Definition if_int (x : option Z) (c : column) (o : Customer) : Customer :=
  match x with
  | Some z => if truthy_int x then setattr c (VInt z) o else o
  | None => o
  end.

(** The UPDATE that [db.commit()] issues for the object. *)
Definition write_back (o : Customer) (db : list Customer) : list Customer :=
  List.map (fun r => if String.eqb (id r) (id o) then o else r) db.

(** [put_customer]; [now] is the value of [datetime.now()]. The result is the
    response and the table after the commit. *)
Definition put_customer (customer : customer_schemas.CustomerUpdate)
    (customer_instance : Customer) (now : Z) (db : list Customer)
    : Customer * list Customer :=
  let ci := customer_instance in
  let ci := if_str (customer_schemas.first_name customer) c_first_name ci in
  let ci := if_str (customer_schemas.last_name customer) c_last_name ci in
  let ci := if_str (customer_schemas.unique_id customer) c_unique_id ci in
  let ci := if_str (customer_schemas.email customer) c_email ci in
  let ci := if_str (customer_schemas.phone_number customer) c_phone_number ci in
  let ci := if_str (customer_schemas.location customer) c_location ci in
  let ci := if_str (customer_schemas.business_name customer) c_business_name ci in
  let ci := if_str (customer_schemas.gender customer) c_gender ci in
  let ci := if_int (customer_schemas.age customer) c_age ci in
  let ci := if_str (customer_schemas.postal_code customer) c_postal_code ci in
  let ci := if_str (customer_schemas.language customer) c_language ci in
  let ci := if_str (customer_schemas.country customer) c_country ci in
  let ci := if_str (customer_schemas.city customer) c_city ci in
  let ci := if_str (customer_schemas.region customer) c_region ci in
  let ci := if_str (customer_schemas.country_code customer) c_region ci in
  let ci := setattr c_last_updated (VInt now) ci in
  (from_orm ci, write_back ci db).

(** [get_customer_by_id]: [from_orm] of no row at all does not validate. *)
Definition get_customer_by_id (customer_id : string) (db : list Customer)
    : outcome Customer :=
  let customer :=
    List.find (fun r => String.eqb (customer_models.customer_id r) customer_id) db in
  match customer with
  | Some c => Ok (from_orm c)
  | None => Raise ValidationError
  end.

End customer_models.

(** ** Creating customers and their extra information
    ([bigfastapi/models/customer_models.py], continued) *)

Module customer_base.
(** Modelled from the spec: the request body [customer_schemas.CustomerBase]
    (outside the source tree), with the attributes [add_customer] reads
    from it. *)
Record CustomerBase : Type := {
  first_name : string;
  last_name : string;
  unique_id : string;
  email : string;
  phone_number : string;
  location : string;
  business_name : string;
  gender : string;
  age : Z;
  postal_code : string;
  language : string;
  country : string;
  city : string;
  region : string;
  country_code : string
}.
End customer_base.

Module other_info.
(** Modelled from the spec: the schema [customer_schemas.OtherInfo] (outside
    the source tree), a key and a value. *)
Record OtherInfo : Type := { key : string; value : string }.
End other_info.

Module other_information.
(** The class [OtherInformation], table [extra_customer_info]. *)
Record OtherInformation : Type := {
  id : string;
  customer_id : string;
  key : string;
  value : string
}.
End other_information.

Module customer_services.
Import customer_models.

(** What an INSERT and its commit come to: the object is stored, or the
    primary key is taken already and the database refuses the row. *)
Inductive stored (A : Type) : Type :=
| Stored (a : A)
| IntegrityError.
Arguments Stored {A} a.
Arguments IntegrityError {A}.

(** Lines 123-144 of [add_customer]: the object built from the request.
    [new_id] is the value of [uuid4().hex], [short_id] that of
    [generate_short_id(size=12)], [created] and [updated] those of the two
    calls of [datetime.now()]. The columns the constructor is not given take
    their defaults. *)
Definition new_customer (new_id short_id : string) (created updated : Z)
    (customer : customer_base.CustomerBase) (organization_id : string) : Customer :=
  {| id := new_id;
     customer_id := short_id;
     organization_id := organization_id;
     email := customer_base.email customer;
     first_name := customer_base.first_name customer;
     last_name := customer_base.last_name customer;
     unique_id := customer_base.unique_id customer;
     phone_number := customer_base.phone_number customer;
     business_name := customer_base.business_name customer;
     location := customer_base.location customer;
     gender := customer_base.gender customer;
     age := customer_base.age customer;
     postal_code := customer_base.postal_code customer;
     language := customer_base.language customer;
     country := customer_base.country customer;
     city := customer_base.city customer;
     region := customer_base.region customer;
     auto_reminder := false;
     country_code := customer_base.country_code customer;
     is_deleted := false;
     date_created := created;
     last_updated := updated |}.

(** [add_customer]: the result is the response and the table after the
    commit. The column [id] is the primary key of the table. *)
Definition add_customer (new_id short_id : string) (created updated : Z)
    (customer : customer_base.CustomerBase) (organization_id : string)
    (db : list Customer) : stored Customer * list Customer :=
  let customer_instance :=
    new_customer new_id short_id created updated customer organization_id in
  if existsb (fun r => String.eqb (id r) new_id) db
  then (IntegrityError, db)
  else (Stored (from_orm customer_instance), (db ++ [customer_instance])%list).

(** Modelled from the spec: [customer_schemas.OtherInfo.from_orm] on a
    stored record keeps the record. *)
Definition other_from_orm (o : other_information.OtherInformation)
    : other_information.OtherInformation := o.

(** The loop of [add_other_info] from its entry number [k] on: [uuid k] is
    the value of [uuid4().hex] in the iteration of entry [k], [res_obj] the
    list built so far. Each iteration commits its own row. *)
Fixpoint add_other_info_from (uuid : nat -> string) (k : nat)
    (list_other_info : list other_info.OtherInfo) (customer_id : string)
    (res_obj db : list other_information.OtherInformation)
    : stored (list other_information.OtherInformation)
      * list other_information.OtherInformation :=
  match list_other_info with
  | [] => (Stored (List.map other_from_orm res_obj), db)
  | other_info :: rest =>
      let other_info_instance :=
        {| other_information.id := uuid k;
           other_information.customer_id := customer_id;
           other_information.key := other_info.key other_info;
           other_information.value := other_info.value other_info |} in
      if existsb (fun r => String.eqb (other_information.id r) (uuid k)) db
      then (IntegrityError, db)
      else add_other_info_from uuid (S k) rest customer_id
             (res_obj ++ [other_info_instance])%list
             (db ++ [other_info_instance])%list
  end.

Definition add_other_info (uuid : nat -> string)
    (list_other_info : list other_info.OtherInfo) (customer_id : string)
    (db : list other_information.OtherInformation)
    : stored (list other_information.OtherInformation)
      * list other_information.OtherInformation :=
  add_other_info_from uuid 0 list_other_info customer_id [] db.

Definition get_other_customer_info (customer_id : string)
    (db : list other_information.OtherInformation)
    : list other_information.OtherInformation :=
  let other_info :=
    List.filter (fun r => String.eqb (other_information.customer_id r) customer_id) db in
  List.map other_from_orm other_info.

End customer_services.

(** [validate_bank_details] of [bigfastapi/banks.py]. *)
Definition validate_bank_details (country_info : gmap string banks.json)
    (country : string) : bool :=
  let country_info := banks.validate_supported_country country_info country in
  country_info.

(** * Statements: the vocabulary of the properties, and sample data *)

Module bank_scenarios.
Import bank_models banks.

(** The response of [delete_bank]. *)
Definition deleted_response : JSONResponse :=
  {| content_detail := "bank details successfully deleted"; status_code := 200 |}.

(** Two records that agree on every attribute but the soft-delete flag. *)
Definition same_but_is_deleted (a b : BankModels) : Prop :=
  id a = id b /\ organisation_id a = organisation_id b
  /\ creator_id a = creator_id b /\ account_number a = account_number b
  /\ bank_name a = bank_name b /\ recipient_name a = recipient_name b
  /\ country a = country b /\ sort_code a = sort_code b
  /\ swift_code a = swift_code b /\ bank_address a = bank_address b
  /\ is_preferred a = is_preferred b /\ account_type a = account_type b
  /\ aba_routing_number a = aba_routing_number b /\ iban a = iban b
  /\ date_created a = date_created b.

(** The live accounts marked preferred. *)
Definition preferred_accounts (table : list BankModels) : list BankModels :=
  List.filter (fun r => is_preferred r && negb (is_deleted r)) table.

(** An account of organization [org] created by user [u1]. *)
Definition account (i org number : string) (preferred deleted : bool) : BankModels :=
  {| id := i; organisation_id := org; creator_id := "u1";
     account_number := number; bank_name := "First Bank";
     recipient_name := "Ada"; country := "Nigeria"; sort_code := "";
     swift_code := ""; bank_address := ""; is_preferred := preferred;
     account_type := "savings"; aba_routing_number := ""; iban := "";
     date_created := 1; is_deleted := deleted |}.

(** A request body that names organization [org] and account number 22. *)
Definition request (org : string) (preferred : bool) : bank_schemas.AddBank :=
  {| bank_schemas.organisation_id := org;
     bank_schemas.account_number := "22";
     bank_schemas.bank_name := "First Bank";
     bank_schemas.recipient_name := "Ada";
     bank_schemas.country := "Nigeria"; bank_schemas.sort_code := "";
     bank_schemas.swift_code := ""; bank_schemas.bank_address := "";
     bank_schemas.is_preferred := preferred;
     bank_schemas.account_type := "savings";
     bank_schemas.aba_routing_number := ""; bank_schemas.iban := "";
     bank_schemas.date_created := 1 |}.

(** User [u1] is a member of [org1] only, user [u2] of [org2] only. *)
Definition u1 : users_schemas.User := {| users_schemas.id := "u1" |}.
Definition u2 : users_schemas.User := {| users_schemas.id := "u2" |}.
Definition members : list (string * string) := [("u1", "org1"); ("u2", "org2")].

End bank_scenarios.

Module customer_scenarios.
Import customer_models.

(** The customers of the organization that are not soft-deleted. *)
Definition live_customers (organization_id : string) (db : list Customer) : list Customer :=
  List.filter (fun r => String.eqb (customer_models.organization_id r) organization_id
                        && negb (is_deleted r)) db.

(** [hasattr(Customer, name)] *)
Definition hasattr (inherited : string -> bool) (name : string) : bool :=
  match column_of_name name with
  | Some _ => true
  | None =>
      String.eqb name "__tablename__" || String.eqb name "__doc__"
      || String.eqb name "__name__" || String.eqb name "__qualname__"
      || String.eqb name "__module__" || inherited name
  end.

(** Names a declarative class has besides those of its body: some of those
    of [object] and of a declarative [Base]. *)
Definition base_names (name : string) : bool :=
  existsb (String.eqb name)
    ["metadata"; "registry"; "__table__"; "__mapper__"; "__init__"; "__class__";
     "__dict__"; "__eq__"; "__hash__"; "__repr__"; "__weakref__"].

(** The order a direction stands for: descending for "desc", ascending for
    anything else. *)
Definition sort_order (sort_dir : string) (c : column) : Customer -> Customer -> bool :=
  if String.eqb sort_dir "desc" then desc c else asc c.

(** Two values of one column in ascending order: false before true,
    integers by size, strings in the order of their character codes. *)
Inductive value_le : value -> value -> Prop :=
| le_bool (x y : bool) : (x = true -> y = true) -> value_le (VBool x) (VBool y)
| le_int (x y : Z) : x <= y -> value_le (VInt x) (VInt y)
| le_str (x y : string) : String.compare x y <> Gt -> value_le (VStr x) (VStr y).

(** [text] starts [s], is inside [s], is [s], for characters compared by
    [eq]. *)
Fixpoint prefix_by (eq : ascii -> ascii -> bool) (text s : string) : bool :=
  match text with
  | EmptyString => true
  | String a text' =>
      match s with
      | EmptyString => false
      | String b s' => eq a b && prefix_by eq text' s'
      end
  end.

Fixpoint occurs_by (eq : ascii -> ascii -> bool) (text s : string) : bool :=
  prefix_by eq text s
  || match s with
     | EmptyString => false
     | String _ s' => occurs_by eq text s'
     end.

Fixpoint equal_by (eq : ascii -> ascii -> bool) (text s : string) : bool :=
  match text, s with
  | EmptyString, EmptyString => true
  | String a text', String b s' => eq a b && equal_by eq text' s'
  | _, _ => false
  end.

(** A string with its upper-case ASCII letters in lower case. *)
Fixpoint lower_string (s : string) : string :=
  match s with
  | EmptyString => EmptyString
  | String a s' => String (lower a) (lower_string s')
  end.

(** Two strings are the same: letter for letter, or, without the case of
    letters, once their ASCII letters are in lower case. *)
Definition same_text (nocase : bool) (a b : string) : Prop :=
  if nocase then lower_string a = lower_string b else a = b.

(** [s] has a part that is the same as [text]. *)
Definition has_text (nocase : bool) (text s : string) : Prop :=
  exists pre mid post, s = pre ++ mid ++ post /\ same_text nocase mid text.

(** What the request supplies for a column: the value of the attribute of
    the same name when it is truthy. *)
Definition supplied_str (x : option string) : option value :=
  match x with
  | Some s => if truthy_str x then Some (VStr s) else None
  | None => None
  end.

Definition supplied_int (x : option Z) : option value :=
  match x with
  | Some z => if truthy_int x then Some (VInt z) else None
  | None => None
  end.

Definition supplied (customer : customer_schemas.CustomerUpdate) (c : column) : option value :=
  match c with
  | c_first_name => supplied_str (customer_schemas.first_name customer)
  | c_last_name => supplied_str (customer_schemas.last_name customer)
  | c_unique_id => supplied_str (customer_schemas.unique_id customer)
  | c_email => supplied_str (customer_schemas.email customer)
  | c_phone_number => supplied_str (customer_schemas.phone_number customer)
  | c_location => supplied_str (customer_schemas.location customer)
  | c_business_name => supplied_str (customer_schemas.business_name customer)
  | c_gender => supplied_str (customer_schemas.gender customer)
  | c_age => supplied_int (customer_schemas.age customer)
  | c_postal_code => supplied_str (customer_schemas.postal_code customer)
  | c_language => supplied_str (customer_schemas.language customer)
  | c_country => supplied_str (customer_schemas.country customer)
  | c_city => supplied_str (customer_schemas.city customer)
  | c_region => supplied_str (customer_schemas.region customer)
  | c_country_code => supplied_str (customer_schemas.country_code customer)
  | _ => None
  end.

(** [text] occurs in [s]. *)
Fixpoint occurs_in (text s : string) : bool :=
  String.prefix text s
  || match s with
     | EmptyString => false
     | String _ s' => occurs_in text s'
     end.

(** A text without the wildcards of LIKE. *)
Fixpoint plain (text : string) : bool :=
  match text with
  | EmptyString => true
  | String a text' => negb (Ascii.eqb a "%") && negb (Ascii.eqb a "_") && plain text'
  end.

(** The search as the specification words it: both sub-queries match the
    text partially. *)
Definition search_customers_spec (organization_id text : string)
    (offset size : nat) (db : list Customer) : list Customer :=
  (offset_limit offset size
     (order_by (desc c_date_created)
        (List.filter (fun r => occurs_in text (first_name r) || occurs_in text (last_name r))
           (live_customers organization_id db)))
   ++
   offset_limit offset size
     (order_by (desc c_date_created)
        (List.filter (fun r => occurs_in text (unique_id r) || occurs_in text (customer_id r))
           (live_customers organization_id db))))%list.

(** A customer of region Lagos and country code 234. *)
Definition customer (i cid org first last uid : string) (created : Z) (deleted : bool)
    : Customer :=
  {| id := i; customer_id := cid; organization_id := org; email := "";
     first_name := first; last_name := last; unique_id := uid;
     phone_number := ""; business_name := ""; location := ""; gender := "";
     age := 0; postal_code := ""; language := ""; country := "";
     city := ""; region := "Lagos"; auto_reminder := false;
     country_code := "234"; is_deleted := deleted; date_created := created;
     last_updated := created |}.

Definition jane : Customer := customer "1" "K9" "org1" "Jane" "Doe" "ABC123" 1 false.
Definition jan : Customer := customer "2" "K7" "org2" "Jan" "Smith" "XYZ789" 2 false.
Definition bob : Customer := customer "3" "K3" "org1" "Bob" "Ray" "DEF456" 3 true.
Definition amy : Customer := customer "4" "K4" "org1" "Amy" "Lim" "GHI012" 4 false.
Definition zed : Customer := customer "0" "K0" "org1" "Zed" "Orr" "MNO678" 0 false.

(** The request [{first_name: x}]. *)
Definition only_first_name (x : string) : customer_schemas.CustomerUpdate :=
  {| customer_schemas.first_name := Some x; customer_schemas.last_name := None;
     customer_schemas.unique_id := None; customer_schemas.email := None;
     customer_schemas.phone_number := None; customer_schemas.location := None;
     customer_schemas.business_name := None; customer_schemas.gender := None;
     customer_schemas.age := None; customer_schemas.postal_code := None;
     customer_schemas.language := None; customer_schemas.country := None;
     customer_schemas.city := None; customer_schemas.region := None;
     customer_schemas.country_code := None |}.

(** The request [{country_code: x}]. *)
Definition only_country_code (x : string) : customer_schemas.CustomerUpdate :=
  {| customer_schemas.first_name := None; customer_schemas.last_name := None;
     customer_schemas.unique_id := None; customer_schemas.email := None;
     customer_schemas.phone_number := None; customer_schemas.location := None;
     customer_schemas.business_name := None; customer_schemas.gender := None;
     customer_schemas.age := None; customer_schemas.postal_code := None;
     customer_schemas.language := None; customer_schemas.country := None;
     customer_schemas.city := None; customer_schemas.region := None;
     customer_schemas.country_code := Some x |}.

End customer_scenarios.

Module validator_scenarios.
Import banks.

(** The catch-all entry of the sample table. *)
Definition others_entry : json :=
  JDict {[ "schema" := JDict {[ "account_number" := JStr "string" ]} ]}.

(** A schema table with the catch-all entry and one country. *)
Definition sample_table : gmap string json :=
  {[ "others" := others_entry;
     "Ghana" := JDict {[ "schema" := JDict {[ "iban" := JStr "string" ]} ]} ]}.

End validator_scenarios.

Module service_scenarios.
Import customer_models customer_services.

(** The rows [add_other_info] builds for the entries, from entry number [k]
    on: one row for each entry, in their order. *)
Fixpoint other_rows (uuid : nat -> string) (k : nat)
    (list_other_info : list other_info.OtherInfo) (customer_id : string)
    : list other_information.OtherInformation :=
  match list_other_info with
  | [] => []
  | other_info :: rest =>
      {| other_information.id := uuid k;
         other_information.customer_id := customer_id;
         other_information.key := other_info.key other_info;
         other_information.value := other_info.value other_info |}
      :: other_rows uuid (S k) rest customer_id
  end.

(** The entry a stored row was built from. *)
Definition entry_of (r : other_information.OtherInformation) : other_info.OtherInfo :=
  {| other_info.key := other_information.key r;
     other_info.value := other_information.value r |}.

Definition new_jo : customer_base.CustomerBase :=
  {| customer_base.first_name := "Jo"; customer_base.last_name := "Poe";
     customer_base.unique_id := "JKL345"; customer_base.email := "jo@example.org";
     customer_base.phone_number := ""; customer_base.location := "";
     customer_base.business_name := ""; customer_base.gender := "";
     customer_base.age := 30; customer_base.postal_code := "";
     customer_base.language := ""; customer_base.country := "";
     customer_base.city := ""; customer_base.region := "";
     customer_base.country_code := "" |}.

Definition colour (v : string) : other_info.OtherInfo :=
  {| other_info.key := "colour"; other_info.value := v |}.

(** Ids in the order of generation: 0, 00, 000, ... *)
Fixpoint zeros (n : nat) : string :=
  match n with
  | O => "0"
  | S n' => String "0" (zeros n')
  end.

End service_scenarios.

(** * Properties *)

Lemma In_firstn {A} n (l : list A) x : In x (firstn n l) -> In x l.
Proof. intros H. rewrite <- (firstn_skipn n l). apply in_or_app. left. exact H. Qed.

Lemma In_skipn {A} n (l : list A) x : In x (skipn n l) -> In x l.
Proof. intros H. rewrite <- (firstn_skipn n l). apply in_or_app. right. exact H. Qed.

Lemma filter_filter {A} (p q : A -> bool) l :
  List.filter q (List.filter p l) = List.filter (fun x => p x && q x) l.
Proof.
  induction l as [|x l IH]; simpl; [reflexivity|].
  destruct (p x); simpl; [destruct (q x)|]; rewrite IH; reflexivity.
Qed.

(** ** The bank handlers *)

Module bank_properties.
Import bank_models banks bank_scenarios.
Local Open Scope db_scope.

(** *** Steps of a computation on the session a handler starts from *)

Lemma bind_Ok {A B} (m : Db A) (k : A -> Db B) s a s' :
  m s = (Ok a, s') -> (x <- m ;; k x) s = k a s'.
Proof. intros H. unfold bind. rewrite H. reflexivity. Qed.

Lemma write_back_nil table : write_back [] table = table.
Proof. unfold write_back. simpl. apply map_id. Qed.

Lemma flush_open_session af ms table :
  flush (open_session af ms table) = open_session af ms table.
Proof.
  unfold flush, open_session, with_new, with_rows. simpl.
  rewrite write_back_nil, app_nil_r. reflexivity.
Qed.

Lemma autoflush_open_session af ms table :
  (if autoflush (open_session af ms table)
   then flush (open_session af ms table)
   else open_session af ms table) = open_session af ms table.
Proof. simpl. destruct af; [apply flush_open_session | reflexivity]. Qed.

Lemma query_all_open_session af ms table p :
  query_all p (open_session af ms table)
  = (Ok (map id (List.filter p table)), open_session af ms table).
Proof. unfold query_all. rewrite autoflush_open_session. reflexivity. Qed.

Lemma is_organization_member_open_session af ms table u o :
  is_organization_member u o (open_session af ms table)
  = (Ok (has_membership ms u o), open_session af ms table).
Proof. reflexivity. Qed.

(** *** The primary key *)

(** A primary key designates one row. *)
Lemma by_id_unique table B :
  List.NoDup (map id table) -> In B table -> by_id (id B) table = Some B.
Proof.
  unfold by_id. induction table as [|r table IH]; simpl; intros Hnd Hin.
  - contradiction.
  - inversion Hnd as [|? ? Hnotin Hnd']; subst.
    destruct Hin as [->|Hin].
    + rewrite String.eqb_refl. reflexivity.
    + destruct (String.eqb_spec (id r) (id B)) as [Heq|_].
      * exfalso. apply Hnotin. rewrite Heq. apply in_map. exact Hin.
      * apply IH; assumption.
Qed.

Lemma find_live_unique table B :
  List.NoDup (map id table) -> In B table -> is_deleted B = false ->
  List.find (fun r => String.eqb (id r) (id B) && negb (is_deleted r)) table = Some B.
Proof.
  induction table as [|r table IH]; simpl; intros Hnd Hin Hlive.
  - contradiction.
  - inversion Hnd as [|? ? Hnotin Hnd']; subst.
    destruct Hin as [->|Hin].
    + rewrite String.eqb_refl, Hlive. reflexivity.
    + destruct (String.eqb_spec (id r) (id B)) as [Heq|_]; simpl.
      * exfalso. apply Hnotin. rewrite Heq. apply in_map. exact Hin.
      * apply IH; assumption.
Qed.

Lemma find_none_deleted table bank_id :
  (forall r, In r table -> id r = bank_id -> is_deleted r = true) ->
  List.find (fun r => String.eqb (id r) bank_id && negb (is_deleted r)) table = None.
Proof.
  induction table as [|r table IH]; simpl; intros H; [reflexivity|].
  destruct (String.eqb_spec (id r) bank_id) as [Heq|_]; simpl.
  - rewrite (H r (or_introl eq_refl) Heq). simpl. apply IH. intros; apply H; auto.
  - apply IH. intros; apply H; auto.
Qed.

(** On a table with a primary key, a map that treats the row of the key of
    [B] apart may as well be given [B] itself. *)
Lemma map_unique_row table B (f g : BankModels -> BankModels) :
  List.NoDup (map id table) -> In B table ->
  map (fun r => if String.eqb (id r) (id B) then f B else g r) table
  = map (fun r => if String.eqb (id r) (id B) then f r else g r) table.
Proof.
  intros Hnd Hin. apply map_ext_in. intros r Hr.
  destruct (String.eqb_spec (id r) (id B)) as [Heq|]; [|reflexivity].
  pose proof (by_id_unique table r Hnd Hr) as H1. rewrite Heq in H1.
  rewrite by_id_unique in H1 by assumption. congruence.
Qed.

Lemma write_back_one table B o :
  id o = id B ->
  write_back [o] table
  = map (fun r => if String.eqb (id r) (id B) then o else r) table.
Proof.
  intros Hid. unfold write_back, by_id. apply map_ext. intros r. simpl.
  rewrite Hid, (String.eqb_sym (id B) (id r)).
  destruct (String.eqb (id r) (id B)); reflexivity.
Qed.

(** *** [fetch_bank] and reading an object *)

Lemma fetch_bank_found af ms table user B :
  List.NoDup (map id table) -> In B table -> is_deleted B = false ->
  fetch_bank user (id B) (open_session af ms table)
  = (Ok (id B), open_session af ms table).
Proof.
  intros Hnd Hin Hlive. unfold fetch_bank, bind, query_first.
  rewrite autoflush_open_session. simpl rows.
  rewrite find_live_unique by assumption. reflexivity.
Qed.

(** [fetch_bank] on the id of a soft-deleted account is [NotFound]. *)
Lemma fetch_bank_deleted af ms table user bank_id :
  (forall r, In r table -> id r = bank_id -> is_deleted r = true) ->
  fetch_bank user bank_id (open_session af ms table)
  = (Raise (HTTPException HTTP_404_NOT_FOUND "This bank detail does not exist here"),
     open_session af ms table).
Proof.
  intros H. unfold fetch_bank, bind, query_first.
  rewrite autoflush_open_session. simpl rows.
  rewrite find_none_deleted by assumption. reflexivity.
Qed.

Lemma getattr_open_session af ms table B :
  List.NoDup (map id table) -> In B table ->
  getattr (id B) (open_session af ms table) = (Ok B, open_session af ms table).
Proof.
  intros Hnd Hin. unfold getattr, state_of. simpl.
  rewrite by_id_unique by assumption. reflexivity.
Qed.

Lemma mapM_from_orm af ms table l :
  List.NoDup (map id table) -> incl l table ->
  mapM from_orm (map id l) (open_session af ms table)
  = (Ok l, open_session af ms table).
Proof.
  intros Hnd. induction l as [|x l IH]; simpl; intros Hincl; [reflexivity|].
  unfold from_orm at 1.
  rewrite (bind_Ok _ _ _ _ _
             (getattr_open_session af ms table x Hnd (Hincl x (or_introl eq_refl)))).
  rewrite (bind_Ok _ _ _ _ _ (IH (fun y Hy => Hincl y (or_intror Hy)))).
  reflexivity.
Qed.

(** *** Reading: [get_organization_bank_accounts] and [get_single_bank] *)

(** The page of [get_organization_bank_accounts] is cut from the live
    accounts of the organization, in row order. *)
Lemma get_organization_bank_accounts_page af ms table params organization_id user ps pn :
  List.NoDup (map id table) ->
  has_membership ms (users_schemas.id user) organization_id = true ->
  get_organization_bank_accounts params organization_id user ps pn
    (open_session af ms table)
  = (Ok (paginate params
           (List.filter (fun r => String.eqb (organisation_id r) organization_id
                                  && Bool.eqb (is_deleted r) false) table)),
     open_session af ms table).
Proof.
  intros Hnd Hmem. unfold get_organization_bank_accounts.
  rewrite (bind_Ok _ _ _ _ _ (is_organization_member_open_session af ms table _ _)).
  rewrite Hmem. cbn [negb].
  rewrite (bind_Ok _ _ _ _ _ (query_all_open_session af ms table _)).
  rewrite (bind_Ok _ _ _ _ _ (mapM_from_orm af ms table _ Hnd (incl_filter _ _))).
  reflexivity.
Qed.

Lemma paginate_items_incl {A} params (l : list A) x :
  In x (items (paginate params l)) -> In x l.
Proof.
  unfold paginate. simpl. intros H.
  apply In_firstn in H. apply In_skipn in H. exact H.
Qed.

(** No soft-deleted account, and no account of another organization, is on a
    page of [get_organization_bank_accounts]. *)
Lemma get_organization_bank_accounts_live
    af ms table params organization_id user ps pn page s' :
  List.NoDup (map id table) ->
  get_organization_bank_accounts params organization_id user ps pn
    (open_session af ms table) = (Ok page, s') ->
  forall r, In r (items page) ->
    is_deleted r = false /\ organisation_id r = organization_id /\ In r table.
Proof.
  intros Hnd Hrun r Hr.
  destruct (has_membership ms (users_schemas.id user) organization_id) eqn:Hmem.
  - rewrite get_organization_bank_accounts_page in Hrun by assumption.
    inversion Hrun; subst. apply paginate_items_incl in Hr.
    apply filter_In in Hr. destruct Hr as [Hin Hp].
    apply andb_true_iff in Hp. destruct Hp as [Ho Hd].
    apply String.eqb_eq in Ho. apply Bool.eqb_prop in Hd. auto.
  - unfold get_organization_bank_accounts in Hrun.
    rewrite (bind_Ok _ _ _ _ _ (is_organization_member_open_session af ms table _ _))
      in Hrun.
    rewrite Hmem in Hrun. discriminate.
Qed.

(** [get_single_bank] returns a live account to any authenticated user: the
    body has no membership test. *)
Lemma get_single_bank_any_user af ms table org_id user B :
  List.NoDup (map id table) -> In B table -> is_deleted B = false ->
  get_single_bank org_id (id B) user (open_session af ms table)
  = (Ok B, open_session af ms table).
Proof.
  intros Hnd Hin Hlive. unfold get_single_bank.
  rewrite (bind_Ok _ _ _ _ _ (fetch_bank_found af ms table user B Hnd Hin Hlive)).
  apply getattr_open_session; assumption.
Qed.

(** [get_single_bank] on the id of a soft-deleted account is [NotFound]. *)
Lemma get_single_bank_deleted af ms table org_id user bank_id :
  (forall r, In r table -> id r = bank_id -> is_deleted r = true) ->
  is_not_found (fst (get_single_bank org_id bank_id user (open_session af ms table)))
  = true.
Proof.
  intros H. unfold get_single_bank, bind.
  rewrite fetch_bank_deleted by assumption. reflexivity.
Qed.

(** *** Writing: [delete_bank], [add_bank_detail], [update_bank_details] *)

(** C10. For a bank account [B] of the table that is not soft-deleted and a
    user who is a member of the organization of [B], [delete_bank] succeeds
    and commits the table in which the row of [B] has [is_deleted = true]
    and every other attribute as before, and every other row is as before;
    the membership records are as before. *)
Theorem delete_bank_frame af ms table user B :
  List.NoDup (map id table) -> In B table -> is_deleted B = false ->
  has_membership ms (users_schemas.id user) (organisation_id B) = true ->
  delete_bank (id B) user (open_session af ms table)
  = (Ok deleted_response,
     open_session af ms
       (map (fun r => if String.eqb (id r) (id B) then set_is_deleted true r else r)
            table))
  /\ is_deleted (set_is_deleted true B) = true
  /\ same_but_is_deleted (set_is_deleted true B) B.
Proof.
  intros Hnd Hin Hlive Hmem.
  split; [|split; [reflexivity | repeat split]].
  unfold delete_bank.
  rewrite (bind_Ok _ _ _ _ _ (fetch_bank_found af ms table user B Hnd Hin Hlive)).
  rewrite (bind_Ok _ _ _ _ _ (getattr_open_session af ms table B Hnd Hin)).
  rewrite (bind_Ok _ _ _ _ _ (is_organization_member_open_session af ms table _ _)).
  rewrite Hmem. cbn [negb].
  unfold bind, setattr, state_of, commit, refresh, ret, flush. simpl.
  rewrite by_id_unique by assumption. simpl.
  rewrite app_nil_r.
  rewrite (write_back_one table B) by reflexivity.
  rewrite (map_unique_row table B (set_is_deleted true) (fun r => r)) by assumption.
  reflexivity.
Qed.

Lemma delete_bank_frame_witness :
  delete_bank "b1" u1
    (open_session false members
       [account "b0" "org1" "10" true false; account "b1" "org1" "11" false false])
  = (Ok deleted_response,
     open_session false members
       [account "b0" "org1" "10" true false; account "b1" "org1" "11" false true])
  /\ is_deleted (set_is_deleted true (account "b1" "org1" "11" false false)) = true
  /\ same_but_is_deleted (set_is_deleted true (account "b1" "org1" "11" false false))
       (account "b1" "org1" "11" false false).
Proof.
  apply (delete_bank_frame false members
           [account "b0" "org1" "10" true false; account "b1" "org1" "11" false false]
           u1 (account "b1" "org1" "11" false false)).
  - repeat constructor; simpl; intuition discriminate.
  - simpl. right. left. reflexivity.
  - reflexivity.
  - reflexivity.
Defined.

(** A user who is not a member of the organization of a live account [B]
    gets [Forbidden] from [delete_bank], and the session is as it was. *)
Lemma delete_bank_forbidden af ms table user B :
  List.NoDup (map id table) -> In B table -> is_deleted B = false ->
  has_membership ms (users_schemas.id user) (organisation_id B) = false ->
  delete_bank (id B) user (open_session af ms table)
  = (Raise (HTTPException HTTP_403_FORBIDDEN
              "You are not allowed to carry out this operation"),
     open_session af ms table).
Proof.
  intros Hnd Hin Hlive Hmem. unfold delete_bank.
  rewrite (bind_Ok _ _ _ _ _ (fetch_bank_found af ms table user B Hnd Hin Hlive)).
  rewrite (bind_Ok _ _ _ _ _ (getattr_open_session af ms table B Hnd Hin)).
  rewrite (bind_Ok _ _ _ _ _ (is_organization_member_open_session af ms table _ _)).
  rewrite Hmem. reflexivity.
Qed.

(** [update_bank_details] tests membership of the organization the request
    names: without it the handler raises [Forbidden] before it reads the
    account. *)
Lemma update_bank_details_forbidden af ms table bank_id bank user :
  has_membership ms (users_schemas.id user) (bank_schemas.organisation_id bank) = false ->
  update_bank_details bank_id bank user (open_session af ms table)
  = (Raise (HTTPException HTTP_403_FORBIDDEN
              "You are not allowed to carry out this operation"),
     open_session af ms table).
Proof.
  intros Hmem. unfold update_bank_details.
  rewrite (bind_Ok _ _ _ _ _ (is_organization_member_open_session af ms table _ _)).
  rewrite Hmem. reflexivity.
Qed.

(** C1. A user who is a member of another organization only reads an account
    with [get_single_bank], and rewrites it with [update_bank_details] by
    naming the own organization in the request; neither is [Forbidden].
    [delete_bank] by the same user is [Forbidden] and changes nothing. *)
Theorem nonmember_gets_and_updates_bank (af : bool) :
  has_membership members (users_schemas.id u2)
    (organisation_id (account "b1" "org1" "11" false false)) = false
  /\ get_single_bank "org2" "b1" u2
       (open_session af members [account "b1" "org1" "11" false false])
     = (Ok (account "b1" "org1" "11" false false),
        open_session af members [account "b1" "org1" "11" false false])
  /\ update_bank_details "b1" (request "org2" false) u2
       (open_session af members [account "b1" "org1" "11" false false])
     = (Ok (account "b1" "org1" "22" false false),
        open_session af members [account "b1" "org1" "22" false false])
  /\ delete_bank "b1" u2
       (open_session af members [account "b1" "org1" "11" false false])
     = (Raise (HTTPException HTTP_403_FORBIDDEN
                 "You are not allowed to carry out this operation"),
        open_session af members [account "b1" "org1" "11" false false]).
Proof. destruct af; (split; [|split; [|split]]); vm_compute; reflexivity. Qed.

(** Creating an account appends its row and leaves the rows there as they
    are: no account marked preferred is cleared. *)
Lemma add_bank_detail_appends af ms table new_id bank user :
  has_membership ms (users_schemas.id user) (bank_schemas.organisation_id bank) = true ->
  snd (add_bank_detail new_id bank user (open_session af ms table))
  = open_session af ms (table ++ [new_bank new_id bank user]).
Proof.
  intros Hmem. unfold add_bank_detail.
  rewrite (bind_Ok _ _ _ _ _ (is_organization_member_open_session af ms table _ _)).
  rewrite Hmem. cbn [negb].
  unfold add_bank, bind, add, commit, refresh, flush, from_orm, getattr. simpl.
  rewrite write_back_nil.
  match goal with
  | |- context [state_of ?i ?s] => destruct (state_of i s)
  end; reflexivity.
Qed.

(** C3. After an account of [org1] is created with [is_preferred = true] and
    then a second one, both rows read [is_preferred = true]: the first is
    not cleared. *)
Theorem second_preferred_keeps_first (af : bool) :
  add_bank_detail "b1" (request "org1" true) u1 (open_session af members [])
  = (Ok (account "b1" "org1" "22" true false),
     open_session af members [account "b1" "org1" "22" true false])
  /\ add_bank_detail "b2" (request "org1" true) u1
       (open_session af members [account "b1" "org1" "22" true false])
     = (Ok (account "b2" "org1" "22" true false),
        open_session af members
          [account "b1" "org1" "22" true false; account "b2" "org1" "22" true false])
  /\ preferred_accounts
       [account "b1" "org1" "22" true false; account "b2" "org1" "22" true false]
     = [account "b1" "org1" "22" true false; account "b2" "org1" "22" true false].
Proof. destruct af; (split; [|split]); vm_compute; reflexivity. Qed.

(** With a session that does not autoflush, when the first row marked
    preferred is an account [P] other than the updated account [B], the
    update clears [P] and writes the request into [B]. *)
Lemma update_bank_details_moves_preference ms table bank user B P :
  List.NoDup (map id table) -> In B table -> is_deleted B = false ->
  has_membership ms (users_schemas.id user) (bank_schemas.organisation_id bank) = true ->
  bank_schemas.is_preferred bank = true ->
  List.find (fun r => Bool.eqb (is_preferred r) true) table = Some P ->
  id P <> id B ->
  update_bank_details (id B) bank user (open_session false ms table)
  = (Ok (assign_bank bank B),
     open_session false ms
       (map (fun r => if String.eqb (id r) (id B) then assign_bank bank r
                      else if String.eqb (id r) (id P) then set_is_preferred false r
                      else r) table)).
Proof.
  intros Hnd Hin Hlive Hmem Hpref Hfind Hne.
  assert (HinP : In P table) by (apply find_some in Hfind; tauto).
  unfold update_bank_details.
  rewrite (bind_Ok _ _ _ _ _ (is_organization_member_open_session false ms table _ _)).
  rewrite Hmem. cbn [negb].
  rewrite (bind_Ok _ _ _ _ _ (fetch_bank_found false ms table user B Hnd Hin Hlive)).
  rewrite Hpref.
  unfold bind, setattr, state_of, query_first, commit, refresh, update_bank, from_orm,
    getattr, state_of, ret, flush. simpl.
  rewrite (by_id_unique table B Hnd Hin). simpl.
  rewrite Hfind. simpl.
  destruct (String.eqb_spec (id B) (id P)) as [Heq|_]; [congruence|].
  rewrite (by_id_unique table P Hnd HinP). simpl.
  destruct (String.eqb_spec (id B) (id P)) as [Heq|_]; [congruence|].
  assert (Hwb :
    write_back [assign_bank bank B; set_is_preferred false P] table
    = map (fun r => if String.eqb (id r) (id B) then assign_bank bank r
                    else if String.eqb (id r) (id P) then set_is_preferred false r
                    else r) table).
  { rewrite <- (map_unique_row table B (assign_bank bank)) by assumption.
    unfold write_back, by_id. apply map_ext_in. intros r Hr. simpl.
    rewrite (String.eqb_sym (id B) (id r)), (String.eqb_sym (id P) (id r)).
    destruct (String.eqb_spec (id r) (id B)) as [Heq|]; [reflexivity|].
    destruct (String.eqb_spec (id r) (id P)) as [Heq|]; [|reflexivity].
    pose proof (by_id_unique table r Hnd Hr) as H1. rewrite Heq in H1.
    rewrite by_id_unique in H1 by assumption. congruence. }
  rewrite Hwb, app_nil_r.
  unfold bind, commit, refresh, flush. simpl.
  rewrite write_back_nil, app_nil_r.
  match goal with
  | |- context [by_id (id B) ?l] =>
      assert (Hb : by_id (id B) l = Some (assign_bank bank B))
  end.
  { rewrite <- (map_unique_row table B (assign_bank bank)) by assumption.
    unfold by_id. clear - Hin.
    induction table as [|r table IH]; simpl in *; [contradiction|].
    destruct (String.eqb_spec (id r) (id B)) as [Heq|Hneq]; simpl.
    - rewrite String.eqb_refl. reflexivity.
    - destruct Hin as [->|Hin]; [congruence|].
      assert (Hid : id (if String.eqb (id r) (id P) then set_is_preferred false r else r)
                    = id r)
        by (destruct (String.eqb (id r) (id P)); reflexivity).
      rewrite Hid. destruct (String.eqb_spec (id r) (id B)); [congruence|].
      apply IH, Hin. }
  rewrite Hb. reflexivity.
Qed.

(** C2. Marking as preferred the account that is the first row marked
    preferred clears the updated account itself: it reads
    [is_preferred = false] after the update. And a soft-deleted row marked
    preferred is the one cleared when it comes first: the live account
    marked preferred before stays marked, next to the updated one. *)
Theorem update_preferred_clears_itself (af : bool) :
  update_bank_details "b1" (request "org1" true) u1
    (open_session af members [account "b1" "org1" "11" true false])
  = (Ok (account "b1" "org1" "22" false false),
     open_session af members [account "b1" "org1" "22" false false])
  /\ preferred_accounts
       [account "d" "org1" "11" true true; account "p" "org1" "11" true false;
        account "b1" "org1" "11" false false]
     = [account "p" "org1" "11" true false]
  /\ update_bank_details "b1" (request "org1" true) u1
       (open_session af members
          [account "d" "org1" "11" true true; account "p" "org1" "11" true false;
           account "b1" "org1" "11" false false])
     = (Ok (account "b1" "org1" "22" true false),
        open_session af members
          [account "d" "org1" "11" false true; account "p" "org1" "11" true false;
           account "b1" "org1" "22" true false])
  /\ preferred_accounts
       [account "d" "org1" "11" false true; account "p" "org1" "11" true false;
        account "b1" "org1" "22" true false]
     = [account "p" "org1" "11" true false; account "b1" "org1" "22" true false].
Proof. destruct af; (split; [|split; [|split]]); vm_compute; reflexivity. Qed.

End bank_properties.

(** ** The customer services *)

Module customer_properties.
Import customer_models customer_scenarios.

(** *** [ORDER BY] *)

Section OrderBy.
Variable leb : Customer -> Customer -> bool.
Hypothesis leb_total : forall a b, leb a b = true \/ leb b a = true.

Lemma insert_row_Permutation x l : Permutation (insert_row leb x l) (x :: l).
Proof.
  induction l as [|y l IH]; simpl.
  - reflexivity.
  - destruct (leb x y).
    + reflexivity.
    + rewrite IH. apply perm_swap.
Qed.

Lemma order_by_Permutation l : Permutation (order_by leb l) l.
Proof.
  induction l as [|x l IH]; simpl.
  - reflexivity.
  - rewrite insert_row_Permutation. apply perm_skip, IH.
Qed.

Lemma insert_row_HdRel a x l :
  leb a x = true ->
  HdRel (fun u v => leb u v = true) a l ->
  HdRel (fun u v => leb u v = true) a (insert_row leb x l).
Proof.
  intros Hax Hl. destruct l as [|y l]; simpl.
  - constructor. exact Hax.
  - destruct (leb x y); constructor.
    + exact Hax.
    + inversion Hl; assumption.
Qed.

Lemma insert_row_Sorted x l :
  Sorted (fun u v => leb u v = true) l ->
  Sorted (fun u v => leb u v = true) (insert_row leb x l).
Proof.
  induction l as [|y l IH]; simpl; intros Hs.
  - repeat constructor.
  - destruct (leb x y) eqn:Hxy.
    + constructor; [exact Hs | constructor; exact Hxy].
    + inversion Hs as [|? ? Hs' Hhd]; subst.
      constructor; [apply IH, Hs'|].
      apply insert_row_HdRel; [|exact Hhd].
      destruct (leb_total x y) as [H|H]; [congruence | exact H].
Qed.

Lemma order_by_Sorted l : Sorted (fun u v => leb u v = true) (order_by leb l).
Proof.
  induction l as [|x l IH]; simpl.
  - constructor.
  - apply insert_row_Sorted, IH.
Qed.

End OrderBy.

Lemma value_leb_total a b : value_leb a b = true \/ value_leb b a = true.
Proof.
  destruct a as [x|x|x], b as [y|y|y]; simpl; auto.
  - destruct x, y; auto.
  - destruct (Z.leb_spec x y), (Z.leb_spec y x); auto; lia.
  - apply String.leb_total.
Qed.

Lemma asc_total c a b : asc c a b = true \/ asc c b a = true.
Proof. apply value_leb_total. Qed.

Lemma desc_total c a b : desc c a b = true \/ desc c b a = true.
Proof. apply value_leb_total. Qed.

Lemma sort_order_total sort_dir c a b :
  sort_order sort_dir c a b = true \/ sort_order sort_dir c b a = true.
Proof.
  unfold sort_order. destruct (String.eqb sort_dir "desc");
    [apply desc_total | apply asc_total].
Qed.

(** Ordered by [date_created], latest first. *)
Lemma order_by_date_created_Sorted l :
  Sorted (fun a b => date_created b <= date_created a) (order_by (desc c_date_created) l).
Proof.
  pose proof (order_by_Sorted (desc c_date_created) (desc_total c_date_created) l) as H.
  induction H as [|a l' Hs IH Hhd]; constructor; [exact IH|].
  destruct Hhd as [|b l'' Hab]; constructor.
  unfold desc in Hab. cbn [read value_leb] in Hab. lia.
Qed.

(** *** The rows a query looks at *)

Lemma In_offset_limit offset size l (x : Customer) :
  In x (offset_limit offset size l) -> In x l.
Proof.
  unfold offset_limit. intros H. apply In_firstn in H. apply In_skipn in H. exact H.
Qed.

Lemma In_order_by leb l (x : Customer) : In x (order_by leb l) -> In x l.
Proof. apply Permutation_in, order_by_Permutation. Qed.

Lemma In_live_customers organization_id db r :
  In r (live_customers organization_id db)
  <-> In r db /\ customer_models.organization_id r = organization_id
      /\ is_deleted r = false.
Proof.
  unfold live_customers.
  rewrite filter_In, andb_true_iff, String.eqb_eq, negb_true_iff. tauto.
Qed.

Lemma live_customers_filters organization_id db :
  List.filter (fun r => Bool.eqb (is_deleted r) false)
    (List.filter (fun r => String.eqb (customer_models.organization_id r) organization_id)
       db)
  = live_customers organization_id db.
Proof.
  rewrite filter_filter. unfold live_customers. apply filter_ext. intros r.
  destruct (is_deleted r); reflexivity.
Qed.

Lemma live_customers_and organization_id db :
  List.filter (fun r => String.eqb (customer_models.organization_id r) organization_id
                        && Bool.eqb (is_deleted r) false) db
  = live_customers organization_id db.
Proof.
  unfold live_customers. apply filter_ext. intros r.
  destruct (is_deleted r); reflexivity.
Qed.

(** *** [fetch_customers] *)

(** [fetch_customers] is a page of the live customers of the organization,
    latest first. *)
Lemma fetch_customers_page organization_id offset size db :
  fetch_customers organization_id offset size db
  = offset_limit offset size
      (order_by (desc c_date_created) (live_customers organization_id db)).
Proof.
  unfold fetch_customers, from_orm. rewrite map_id, live_customers_filters. reflexivity.
Qed.

(** No soft-deleted customer, and no customer of another organization, is in
    the result of [fetch_customers]. *)
Lemma fetch_customers_live organization_id offset size db r :
  In r (fetch_customers organization_id offset size db) ->
  In r (live_customers organization_id db).
Proof.
  rewrite fetch_customers_page.
  intros H. apply In_offset_limit, In_order_by in H. exact H.
Qed.

(** *** [search_customers] *)

Lemma like_percent nocase pattern s :
  like nocase (String "%" pattern) s
  = like nocase pattern s || match s with
                             | EmptyString => false
                             | String _ s' => like nocase (String "%" pattern) s'
                             end.
Proof. destruct s; reflexivity. Qed.

Lemma like_percent_any nocase s : like nocase "%" s = true.
Proof.
  induction s as [|a s IH].
  - reflexivity.
  - rewrite like_percent. rewrite IH. apply orb_true_r.
Qed.

(** A character of a text without wildcards is matched as [char_eqb]
    compares. *)
Lemma like_plain_cons nocase a text s :
  Ascii.eqb a "%" = false -> Ascii.eqb a "_" = false ->
  like nocase (String a text) s
  = match s with
    | EmptyString => false
    | String b s' => char_eqb nocase a b && like nocase text s'
    end.
Proof. intros H1 H2. cbn [like]. rewrite H1, H2. reflexivity. Qed.

Lemma plain_cons a text :
  plain (String a text) = true ->
  Ascii.eqb a "%" = false /\ Ascii.eqb a "_" = false /\ plain text = true.
Proof.
  cbn [plain]. intros Hp. apply andb_true_iff in Hp. destruct Hp as [Hp Hp'].
  apply andb_true_iff in Hp. destruct Hp as [H1 H2].
  apply negb_true_iff in H1, H2. auto.
Qed.

Lemma like_plain_prefix_by nocase text s :
  plain text = true ->
  like nocase (text ++ "%") s = prefix_by (char_eqb nocase) text s.
Proof.
  revert s. induction text as [|a text IH]; intros s Hp.
  - change (like nocase "%" s = prefix_by (char_eqb nocase) "" s).
    rewrite like_percent_any. reflexivity.
  - apply plain_cons in Hp. destruct Hp as [H1 [H2 Hp]].
    change (like nocase (String a (text ++ "%")) s
            = prefix_by (char_eqb nocase) (String a text) s).
    rewrite like_plain_cons by assumption.
    destruct s as [|b s]; [reflexivity|].
    cbn [prefix_by]. rewrite IH by exact Hp. reflexivity.
Qed.

(** For a text without wildcards, [LIKE '%text%'] tests that the text is
    inside the value, for characters compared as LIKE compares them. *)
Lemma like_plain_occurs_by nocase text s :
  plain text = true ->
  like nocase ("%" ++ text ++ "%") s = occurs_by (char_eqb nocase) text s.
Proof.
  intros Hp. induction s as [|a s IH].
  - change (like nocase (String "%" (text ++ "%")) ""
            = occurs_by (char_eqb nocase) text "").
    rewrite like_percent, like_plain_prefix_by by exact Hp.
    cbn [occurs_by]. reflexivity.
  - change (like nocase (String "%" (text ++ "%")) (String a s)
            = occurs_by (char_eqb nocase) text (String a s)).
    change (like nocase (String "%" (text ++ "%")) s
            = occurs_by (char_eqb nocase) text s) in IH.
    rewrite like_percent, like_plain_prefix_by by exact Hp.
    rewrite IH. reflexivity.
Qed.

(** For a text without wildcards, [LIKE text] tests that the value is the
    text, for characters compared as LIKE compares them. *)
Lemma like_plain_equal_by nocase text s :
  plain text = true -> like nocase text s = equal_by (char_eqb nocase) text s.
Proof.
  revert s. induction text as [|a text IH]; intros s Hp.
  - destruct s; reflexivity.
  - apply plain_cons in Hp. destruct Hp as [H1 [H2 Hp]].
    rewrite like_plain_cons by assumption.
    destruct s as [|b s]; [reflexivity|].
    cbn [equal_by]. rewrite IH by exact Hp. reflexivity.
Qed.

(** Compared as they are, the three tests are those of the library. *)
Lemma prefix_by_eqb text s : prefix_by Ascii.eqb text s = String.prefix text s.
Proof.
  revert s. induction text as [|a text IH]; intros s.
  - destruct s; reflexivity.
  - destruct s as [|b s]; [reflexivity|].
    cbn [prefix_by String.prefix]. rewrite IH.
    destruct (Ascii.eqb_spec a b) as [->|Hne].
    + destruct (ascii_dec b b); [reflexivity | contradiction].
    + destruct (ascii_dec a b); [contradiction | reflexivity].
Qed.

Lemma occurs_by_eqb text s : occurs_by Ascii.eqb text s = occurs_in text s.
Proof.
  induction s as [|a s IH]; cbn [occurs_by occurs_in]; rewrite prefix_by_eqb.
  - reflexivity.
  - rewrite IH. reflexivity.
Qed.

Lemma equal_by_eqb text s : equal_by Ascii.eqb text s = String.eqb text s.
Proof.
  revert s. induction text as [|a text IH]; intros s; destruct s as [|b s];
    try reflexivity.
  cbn [equal_by String.eqb]. rewrite IH.
  destruct (Ascii.eqb a b); reflexivity.
Qed.

(** Characters that are the same are the same without their case. *)
Lemma char_eqb_eqb nocase a b : Ascii.eqb a b = true -> char_eqb nocase a b = true.
Proof.
  intros H. apply Ascii.eqb_eq in H. subst b. unfold char_eqb.
  destruct nocase; apply Ascii.eqb_refl.
Qed.

Lemma prefix_by_weaken nocase text s :
  prefix_by Ascii.eqb text s = true -> prefix_by (char_eqb nocase) text s = true.
Proof.
  revert s. induction text as [|a text IH]; intros s; [reflexivity|].
  destruct s as [|b s]; [discriminate|]. cbn [prefix_by].
  rewrite !andb_true_iff. intros [H1 H2]. split; [apply char_eqb_eqb, H1 | apply IH, H2].
Qed.

Lemma occurs_by_weaken nocase text s :
  occurs_by Ascii.eqb text s = true -> occurs_by (char_eqb nocase) text s = true.
Proof.
  induction s as [|a s IH]; cbn [occurs_by]; rewrite !orb_true_iff.
  - intros [H|H]; [left; apply prefix_by_weaken, H | discriminate].
  - intros [H|H]; [left; apply prefix_by_weaken, H | right; apply IH, H].
Qed.

Lemma equal_by_weaken nocase text s :
  equal_by Ascii.eqb text s = true -> equal_by (char_eqb nocase) text s = true.
Proof.
  revert s. induction text as [|a text IH]; intros s; destruct s as [|b s];
    try discriminate; [reflexivity|].
  cbn [equal_by]. rewrite !andb_true_iff.
  intros [H1 H2]. split; [apply char_eqb_eqb, H1 | apply IH, H2].
Qed.

(** For a text without wildcards and a LIKE that compares characters as
    they are, [LIKE '%text%'] is the substring test. *)
Lemma like_plain_occurs text s :
  plain text = true -> like false ("%" ++ text ++ "%") s = occurs_in text s.
Proof.
  intros Hp. rewrite like_plain_occurs_by by exact Hp. apply occurs_by_eqb.
Qed.

(** The two sub-queries of [search_customers]: pages, latest first, of the
    live customers of the organization whose first or last name is like
    [%text%], then of those whose unique id or short id is like the text
    itself. *)
Lemma search_customers_parts nocase organization_id search_value offset size db :
  search_customers nocase organization_id search_value offset size db
  = (offset_limit offset size
       (order_by (desc c_date_created)
          (List.filter (fun r => like nocase ("%" ++ search_value ++ "%") (first_name r)
                                 || like nocase ("%" ++ search_value ++ "%") (last_name r))
             (live_customers organization_id db)))
     ++
     offset_limit offset size
       (order_by (desc c_date_created)
          (List.filter (fun r => like nocase search_value (unique_id r)
                                 || like nocase search_value (customer_id r))
             (live_customers organization_id db))))%list.
Proof.
  unfold search_customers, from_orm. rewrite !map_id, !live_customers_and. reflexivity.
Qed.

(** No soft-deleted customer, and no customer of another organization, is in
    the result of [search_customers]. *)
Lemma search_customers_live nocase organization_id search_value offset size db r :
  In r (search_customers nocase organization_id search_value offset size db) ->
  In r (live_customers organization_id db).
Proof.
  rewrite search_customers_parts. intros H. apply in_app_or in H.
  destruct H as [H|H]; apply In_offset_limit, In_order_by, filter_In in H; tauto.
Qed.

(** The scenario of the specification: of "Jane Doe" in [org1] and
    "Jan Smith" in [org2], the search for "Jan" in [org1] finds the first. *)
Example search_jan (nocase : bool) :
  search_customers nocase "org1" "Jan" 0 50 [jane; jan] = [jane].
Proof. destruct nocase; vm_compute; reflexivity. Qed.

(** A LIKE that compares letters without their case finds "Jane" for the
    text "jan"; one that compares them as they are does not. *)
Example search_jan_lower_case :
  search_customers true "org1" "jan" 0 50 [jane; jan] = [jane]
  /\ search_customers false "org1" "jan" 0 50 [jane; jan] = [].
Proof. split; vm_compute; reflexivity. Qed.

(** C6. The second sub-query matches the text as a LIKE pattern of its own,
    without the [%] on either side: a customer whose unique id is "ABC123"
    is not found by the text "ABC", which occurs in it, and is found by the
    whole id; with a LIKE that compares letters with or without their
    case. *)
Theorem search_by_id_is_not_partial (nocase : bool) :
  occurs_in "ABC" (unique_id jane) = true
  /\ search_customers nocase "org1" "ABC" 0 50 [jane] = []
  /\ search_customers_spec "org1" "ABC" 0 50 [jane] = [jane]
  /\ search_customers nocase "org1" "ABC123" 0 50 [jane] = [jane].
Proof. destruct nocase; (split; [|split; [|split]]); vm_compute; reflexivity. Qed.

(** *** [sort_customers] *)

Lemma order_by_column_getattr inherited sort_key c :
  column_of_name sort_key = Some c
  \/ (hasattr inherited sort_key = false /\ c = c_first_name) ->
  order_by_column (getattr inherited sort_key (Str "first_name")) = Ok (Some c).
Proof.
  unfold getattr, hasattr. intros [Hc|[Hno ->]].
  - rewrite Hc. reflexivity.
  - destruct (column_of_name sort_key); [discriminate|].
    repeat (apply orb_false_iff in Hno; destruct Hno as [Hno ?]).
    repeat match goal with
           | E : String.eqb _ _ = false |- _ => rewrite E; clear E
           | E : inherited _ = false |- _ => rewrite E; clear E
           end.
    reflexivity.
Qed.

(** The order of the values of a column, as the sort computes it, is the
    order of booleans, integers and strings. *)
Lemma value_leb_le c a b :
  value_leb (read c a) (read c b) = true -> value_le (read c a) (read c b).
Proof.
  destruct c; cbn [read value_leb]; intros H; constructor;
    try (apply Z.leb_le; exact H);
    try (unfold String.leb in H; intros Hgt; rewrite Hgt in H; discriminate H);
    try (intros Hx; rewrite Hx in H; exact H).
Qed.

Lemma HdRel_impl {A} (R R' : A -> A -> Prop) a l :
  (forall x y, R x y -> R' x y) -> HdRel R a l -> HdRel R' a l.
Proof. intros H Hd. destruct Hd; constructor. apply H. assumption. Qed.

Lemma Sorted_impl {A} (R R' : A -> A -> Prop) l :
  (forall x y, R x y -> R' x y) -> Sorted R l -> Sorted R' l.
Proof.
  intros H Hs. induction Hs as [|a l Hs IH Hd]; constructor;
    [exact IH | exact (HdRel_impl R R' a l H Hd)].
Qed.

(** C7, amended. For a sort key that names a column of [Customer], or that
    is no attribute of [Customer] at all, [sort_customers] raises nothing
    and returns the page [offset, size] of the live customers of the
    organization put in the order of the values of a column: the column the
    key names, and [first_name] when the key is no attribute; ascending,
    and descending when the direction is "desc". *)
Theorem sort_customers_orders
    inherited organization_id sort_key offset size sort_dir db c :
  column_of_name sort_key = Some c
  \/ (hasattr inherited sort_key = false /\ c = c_first_name) ->
  exists sorted,
    sort_customers inherited organization_id sort_key offset size sort_dir db
    = Ok (offset_limit offset size sorted)
    /\ Permutation sorted (live_customers organization_id db)
    /\ (sort_dir <> "desc" ->
        Sorted (fun a b => value_le (read c a) (read c b)) sorted)
    /\ (sort_dir = "desc" ->
        Sorted (fun a b => value_le (read c b) (read c a)) sorted).
Proof.
  intros Hkey.
  exists (order_by (sort_order sort_dir c) (live_customers organization_id db)).
  split; [|split; [|split]].
  - unfold sort_customers, sort_order.
    rewrite (order_by_column_getattr inherited sort_key c Hkey), live_customers_filters.
    unfold from_orm, ordered.
    destruct (String.eqb sort_dir "desc"); rewrite map_id; reflexivity.
  - apply order_by_Permutation.
  - intros Hd. apply String.eqb_neq in Hd. unfold sort_order. rewrite Hd.
    apply (Sorted_impl (fun a b => asc c a b = true)).
    + intros x y. apply value_leb_le.
    + apply order_by_Sorted. intros a b. apply asc_total.
  - intros ->. unfold sort_order. cbn [String.eqb]. rewrite !Ascii.eqb_refl.
    apply (Sorted_impl (fun a b => desc c a b = true)).
    + intros x y. apply value_leb_le.
    + apply order_by_Sorted. intros a b. apply desc_total.
Qed.

Lemma sort_customers_orders_witness :
  (column_of_name "nickname" = Some c_first_name
   \/ (hasattr base_names "nickname" = false /\ c_first_name = c_first_name))
  /\ exists sorted,
      sort_customers base_names "org1" "nickname" 0 50 "asc" [zed; jan; bob; amy]
      = Ok (offset_limit 0 50 sorted)
      /\ Permutation sorted (live_customers "org1" [zed; jan; bob; amy])
      /\ ("asc" <> "desc" ->
          Sorted (fun a b => value_le (read c_first_name a) (read c_first_name b)) sorted)
      /\ ("asc" = "desc" ->
          Sorted (fun a b => value_le (read c_first_name b) (read c_first_name a)) sorted).
Proof.
  split.
  - right. split; reflexivity.
  - apply (sort_customers_orders base_names "org1" "nickname" 0 50 "asc"
             [zed; jan; bob; amy] c_first_name).
    right. split; reflexivity.
Defined.

(** C7, as stated, fails: a key that names an attribute of the class which
    is no column is not ordered by, and does not fall back to the first
    name either. [__tablename__] is the string "customer", which names no
    column of the query: the query raises. [__doc__] is [None]: the rows
    come back without an order, "Zed" before "Amy". [metadata] is no SQL
    expression: [order_by] raises. *)
Theorem sort_key_that_is_no_column :
  (hasattr base_names "__tablename__" = true /\ column_of_name "__tablename__" = None)
  /\ sort_customers base_names "org1" "__tablename__" 0 50 "asc" [zed; jan; bob; amy]
     = Raise CompileError
  /\ ~ (exists sorted,
          sort_customers base_names "org1" "__tablename__" 0 50 "asc" [zed; jan; bob; amy]
          = Ok sorted)
  /\ sort_customers base_names "org1" "__doc__" 0 50 "asc" [zed; jan; bob; amy]
     = Ok [zed; amy]
  /\ first_name zed = "Zed" /\ first_name amy = "Amy"
  /\ sort_customers base_names "org1" "nickname" 0 50 "asc" [zed; jan; bob; amy]
     = Ok [amy; zed]
  /\ sort_customers base_names "org1" "metadata" 0 50 "desc" [zed; jan; bob; amy]
     = Raise ArgumentError.
Proof.
  assert (H : sort_customers base_names "org1" "__tablename__" 0 50 "asc"
                [zed; jan; bob; amy] = Raise CompileError) by (vm_compute; reflexivity).
  split; [split; vm_compute; reflexivity|].
  split; [exact H|].
  split; [intros [l Hl]; rewrite H in Hl; discriminate|].
  repeat split; vm_compute; reflexivity.
Qed.

(** A key that names no attribute sorts by first name; "desc" reverses, and
    no other spelling of the direction does. *)
Example sort_by_unknown_key :
  sort_customers base_names "org1" "nickname" 0 50 "asc" [jane; jan; bob; amy]
  = Ok [amy; jane]
  /\ sort_customers base_names "org1" "nickname" 0 50 "desc" [jane; jan; bob; amy]
     = Ok [jane; amy]
  /\ sort_customers base_names "org1" "date_created" 0 50 "DESC" [jane; jan; bob; amy]
     = Ok [jane; amy].
Proof. (split; [|split]); vm_compute; reflexivity. Qed.

(** A key that names an attribute which is no column is not ordered by. *)
Example sort_by_tablename :
  sort_customers base_names "org1" "__tablename__" 0 50 "asc" [jane; jan; bob; amy]
  = Raise CompileError.
Proof. vm_compute. reflexivity. Qed.

(** No soft-deleted customer, and no customer of another organization, is in
    the result of [sort_customers]. *)
Lemma sort_customers_live inherited organization_id sort_key offset size sort_dir db l r :
  sort_customers inherited organization_id sort_key offset size sort_dir db = Ok l ->
  In r l -> In r (live_customers organization_id db).
Proof.
  unfold sort_customers, from_orm, ordered. intros H Hr.
  destruct (order_by_column _) as [o|e];
    [|destruct (String.eqb sort_dir "desc"); discriminate].
  rewrite !map_id, !live_customers_filters in H.
  destruct (String.eqb sort_dir "desc"), o as [c|]; inversion H; subst;
    apply In_offset_limit in Hr; try apply In_order_by in Hr; exact Hr.
Qed.

(** *** [get_customer_by_id] *)

(** C5. [get_customer_by_id] returns a soft-deleted customer by its short id:
    the query has no test of [is_deleted]. The same customer is in no
    result of [fetch_customers], [search_customers] and [sort_customers]. *)
Theorem get_customer_by_id_returns_deleted (nocase : bool) (inherited : string -> bool) :
  is_deleted bob = true
  /\ get_customer_by_id "K3" [jane; bob] = Ok bob
  /\ fetch_customers "org1" 0 50 [jane; bob] = [jane]
  /\ search_customers nocase "org1" "Bob" 0 50 [jane; bob] = []
  /\ sort_customers inherited "org1" "first_name" 0 50 "asc" [jane; bob] = Ok [jane].
Proof. destruct nocase; (split; [|split; [|split; [|split]]]); vm_compute; reflexivity. Qed.

(** *** [put_customer] *)

Lemma read_setattr_ne c k v o :
  column_eqb k c = false -> read c (setattr k v o) = read c o.
Proof. destruct c, k; intros H; try discriminate H; reflexivity. Qed.

Lemma read_if_str_ne c k x o :
  column_eqb k c = false -> read c (if_str x k o) = read c o.
Proof.
  intros H. unfold if_str. destruct x as [s|]; [|reflexivity].
  destruct (truthy_str (Some s)); [apply read_setattr_ne, H | reflexivity].
Qed.

Lemma read_if_int_ne c k x o :
  column_eqb k c = false -> read c (if_int x k o) = read c o.
Proof.
  intros H. unfold if_int. destruct x as [z|]; [|reflexivity].
  destruct (truthy_int (Some z)); [apply read_setattr_ne, H | reflexivity].
Qed.

Lemma read_if_str_eq c x o s :
  read c o = VStr s ->
  read c (if_str x c o) = default (read c o) (supplied_str x).
Proof.
  intros H. unfold if_str, supplied_str. destruct x as [t|]; [|reflexivity].
  destruct (truthy_str (Some t)); [|reflexivity].
  destruct c; try discriminate H; reflexivity.
Qed.

Lemma read_if_int_eq c x o z :
  read c o = VInt z ->
  read c (if_int x c o) = default (read c o) (supplied_int x).
Proof.
  intros H. unfold if_int, supplied_int. destruct x as [t|]; [|reflexivity].
  destruct (truthy_int (Some t)); [|reflexivity].
  destruct c; try discriminate H; reflexivity.
Qed.

(** Reading a column past the assignments to other columns. *)
Ltac skip_steps :=
  repeat first
    [ rewrite read_setattr_ne by reflexivity
    | rewrite read_if_str_ne by reflexivity
    | rewrite read_if_int_ne by reflexivity ].

(** Every column but [region], [country_code] and [last_updated] holds,
    after [put_customer], the value the request supplies for it, or its
    value before when the request supplies none. *)
Lemma put_customer_frame customer customer_instance now db c :
  c <> c_region -> c <> c_country_code -> c <> c_last_updated ->
  read c (fst (put_customer customer customer_instance now db))
  = default (read c customer_instance) (supplied customer c).
Proof.
  intros Hr Hc Hl. unfold put_customer, from_orm. cbn [fst].
  destruct c; try congruence; cbn [supplied]; skip_steps;
    try reflexivity;
    first [ erewrite read_if_str_eq by (skip_steps; reflexivity)
          | erewrite read_if_int_eq by (skip_steps; reflexivity) ];
    skip_steps; reflexivity.
Qed.

(** [put_customer] always sets [last_updated] to the current time. *)
Lemma put_customer_last_updated customer customer_instance now db :
  last_updated (fst (put_customer customer customer_instance now db)) = now.
Proof. reflexivity. Qed.

(** The update [{first_name: x}] with a non-empty [x] changes [first_name]
    and [last_updated] only. *)
Lemma put_customer_only_first_name x customer_instance now db :
  x <> "" ->
  fst (put_customer (only_first_name x) customer_instance now db)
  = setattr c_last_updated (VInt now) (setattr c_first_name (VStr x) customer_instance).
Proof.
  intros Hx. unfold put_customer, only_first_name, from_orm. cbn.
  apply String.eqb_neq in Hx. rewrite Hx. reflexivity.
Qed.

Lemma put_customer_id customer customer_instance now db :
  id (fst (put_customer customer customer_instance now db)) = id customer_instance.
Proof.
  assert (H : VStr (id (fst (put_customer customer customer_instance now db)))
              = VStr (id customer_instance))
    by (apply (put_customer_frame customer customer_instance now db c_id); discriminate).
  congruence.
Qed.

Lemma put_customer_table customer customer_instance now db :
  snd (put_customer customer customer_instance now db)
  = write_back (fst (put_customer customer customer_instance now db)) db.
Proof. reflexivity. Qed.

(** C4. A request that supplies [country_code] only, and no [region],
    overwrites the stored [region]; the stored [country_code] stays. *)
Theorem put_customer_region_from_country_code :
  supplied (only_country_code "NG") c_region = None
  /\ region jane = "Lagos"
  /\ put_customer (only_country_code "NG") jane 9 [jane]
     = (setattr c_last_updated (VInt 9) (setattr c_region (VStr "NG") jane),
        [setattr c_last_updated (VInt 9) (setattr c_region (VStr "NG") jane)])
  /\ region (fst (put_customer (only_country_code "NG") jane 9 [jane])) = "NG"
  /\ country_code (fst (put_customer (only_country_code "NG") jane 9 [jane])) = "234".
Proof. (split; [|split; [|split; [|split]]]); vm_compute; reflexivity. Qed.

(** C9. [put_customer] leaves the stored [country_code] as it is, in the
    response and in the row of the customer; a truthy [country_code] of the
    request is written to [region]. *)
Theorem put_customer_country_code customer customer_instance now db :
  country_code (fst (put_customer customer customer_instance now db))
  = country_code customer_instance
  /\ (forall r, In r (snd (put_customer customer customer_instance now db)) ->
        id r = id customer_instance -> country_code r = country_code customer_instance)
  /\ (forall s, customer_schemas.country_code customer = Some s -> s <> "" ->
        region (fst (put_customer customer customer_instance now db)) = s).
Proof.
  assert (Hcc : country_code (fst (put_customer customer customer_instance now db))
                = country_code customer_instance).
  { assert (H : read c_country_code (fst (put_customer customer customer_instance now db))
                = read c_country_code customer_instance).
    { unfold put_customer, from_orm. cbn [fst]. skip_steps. reflexivity. }
    cbn [read] in H. congruence. }
  split; [exact Hcc|split].
  - intros r Hin Hid. rewrite put_customer_table in Hin.
    unfold write_back in Hin. apply in_map_iff in Hin.
    destruct Hin as [r0 [Hr0 _]].
    rewrite put_customer_id in Hr0.
    destruct (String.eqb_spec (id r0) (id customer_instance)) as [_|Hne].
    + subst r. exact Hcc.
    + subst r. contradiction.
  - intros s Hs Hne.
    assert (H : read c_region (fst (put_customer customer customer_instance now db))
                = VStr s).
    { unfold put_customer, from_orm. cbn [fst]. skip_steps.
      erewrite read_if_str_eq by (cbn [read]; reflexivity).
      rewrite Hs. unfold supplied_str. cbn [truthy_str].
      apply String.eqb_neq in Hne. rewrite Hne. reflexivity. }
    cbn [read] in H. congruence.
Qed.

Lemma put_customer_country_code_witness :
  country_code (fst (put_customer (only_country_code "NG") jane 9 [jane; amy]))
  = country_code jane
  /\ (forall r, In r (snd (put_customer (only_country_code "NG") jane 9 [jane; amy])) ->
        id r = id jane -> country_code r = country_code jane)
  /\ (forall s, customer_schemas.country_code (only_country_code "NG") = Some s ->
        s <> "" ->
        region (fst (put_customer (only_country_code "NG") jane 9 [jane; amy])) = s).
Proof.
  apply (put_customer_country_code (only_country_code "NG") jane 9 [jane; amy]).
Defined.

End customer_properties.

(** ** The country schema table *)

Module validator_properties.
Import banks validator_scenarios.

Lemma contains_None (country_info : gmap string json) country :
  country_info !! country = None -> contains country_info country = false.
Proof.
  intros H. unfold contains. apply bool_decide_eq_false. rewrite H.
  intros [x Hx]. discriminate.
Qed.

Lemma contains_Some (country_info : gmap string json) country entry :
  country_info !! country = Some entry -> contains country_info country = true.
Proof. intros H. unfold contains. apply bool_decide_eq_true. eauto. Qed.

(** [validate_supported_country] is the membership test on the keys. *)
Lemma validate_supported_country_spec (country_info : gmap string json) country :
  validate_supported_country country_info country = true
  <-> is_Some (country_info !! country).
Proof.
  unfold validate_supported_country. rewrite existsb_exists. split.
  - intros [k [Hin Heq]]. apply String.eqb_eq in Heq. subst k.
    apply in_map_iff in Hin. destruct Hin as [[k v] [Hk Hin]]. simpl in Hk. subst k.
    apply list_elem_of_In, elem_of_map_to_list in Hin. eauto.
  - intros [v Hv]. exists country. split; [|apply String.eqb_refl].
    apply in_map_iff. exists (country, v). split; [reflexivity|].
    apply list_elem_of_In, elem_of_map_to_list. exact Hv.
Qed.

(** C8, as stated, fails: an [info] that is no key of the resolved entry
    raises [KeyError], for a country of the table and for one that is not;
    and an empty [info] yields the whole entry of a country of the table. *)
Theorem get_country_data_can_fail :
  ~ (exists v, get_country_data sample_table "Nigeria" (Some "currency") = Ok v)
  /\ get_country_data sample_table "Nigeria" (Some "currency")
     = Raise (KeyError "currency")
  /\ get_country_data sample_table "Ghana" (Some "currency")
     = Raise (KeyError "currency")
  /\ get_country_data sample_table "Ghana" (Some "")
     = get_country_data sample_table "Ghana" None.
Proof.
  assert (H : get_country_data sample_table "Nigeria" (Some "currency")
              = Raise (KeyError "currency")) by (vm_compute; reflexivity).
  split; [|split; [exact H | split; vm_compute; reflexivity]].
  intros [v Hv]. rewrite H in Hv. discriminate.
Qed.

(** C8, amended. On a table that has the entry "others": without [info],
    [get_country_data] returns the entry of the country, and the entry
    "others" for a country that is no key; for a country that is no key it
    returns what it returns for "others", whatever the [info] but the empty
    one; and with a non-empty [info] that is a key of the resolved entry it
    returns that field of the entry. *)
Theorem get_country_data_resolves (country_info : gmap string json) others :
  country_info !! "others" = Some others ->
  (forall country,
      get_country_data country_info country None
      = Ok (default others (country_info !! country)))
  /\ (forall country info,
        country_info !! country = None -> info <> Some "" ->
        get_country_data country_info country info
        = get_country_data country_info "others" info)
  /\ (forall country key d v,
        key <> "" ->
        default others (country_info !! country) = JDict d -> d !! key = Some v ->
        get_country_data country_info country (Some key) = Ok v).
Proof.
  intros Ho. split; [|split].
  - intros country. unfold get_country_data, table_getitem.
    destruct (country_info !! country) as [entry|] eqn:Hc.
    + rewrite (contains_Some _ _ _ Hc). reflexivity.
    + rewrite (contains_None _ _ Hc). simpl. rewrite Ho. reflexivity.
  - intros country info Hc Hinfo. unfold get_country_data, table_getitem.
    rewrite (contains_None _ _ Hc), (contains_Some _ _ _ Ho), Ho. simpl.
    destruct info as [key|]; [|reflexivity].
    unfold truthy. destruct (String.eqb_spec key ""); [subst; contradiction|reflexivity].
  - intros country key d v Hkey Hd Hv.
    unfold get_country_data, table_getitem, getitem_info, truthy.
    apply String.eqb_neq in Hkey.
    destruct (country_info !! country) as [entry|] eqn:Hc; simpl in Hd.
    + rewrite (contains_Some _ _ _ Hc), Hkey. simpl. subst entry.
      simpl. rewrite Hv. reflexivity.
    + rewrite (contains_None _ _ Hc), Ho. simpl. subst others.
      simpl. rewrite Hv. reflexivity.
Qed.

Lemma get_country_data_resolves_witness :
  sample_table !! "others" = Some others_entry
  /\ (forall country,
        get_country_data sample_table country None
        = Ok (default others_entry (sample_table !! country)))
  /\ (forall country info,
        sample_table !! country = None -> info <> Some "" ->
        get_country_data sample_table country info
        = get_country_data sample_table "others" info)
  /\ (forall country key d v,
        key <> "" ->
        default others_entry (sample_table !! country) = JDict d -> d !! key = Some v ->
        get_country_data sample_table country (Some key) = Ok v).
Proof.
  split.
  - vm_compute. reflexivity.
  - apply (get_country_data_resolves sample_table others_entry).
    vm_compute. reflexivity.
Defined.

(** The scenario of the specification: "Nigeria" is no key of the table. *)
Example nigeria_is_others :
  get_country_data sample_table "Nigeria" None = Ok others_entry
  /\ get_country_data sample_table "Nigeria" None
     = get_country_data sample_table "others" None
  /\ get_country_data sample_table "Nigeria" (Some "schema")
     = Ok (JDict {[ "account_number" := JStr "string" ]}).
Proof. (split; [|split]); vm_compute; reflexivity. Qed.

End validator_properties.

(** * Further properties of the handlers and services *)

(** ** The bank handlers *)

Module bank_coverage.
Import bank_models banks bank_scenarios bank_properties.
Local Open Scope db_scope.

(** What [delete_bank] commits for a member of the organization of a live
    account. *)
Lemma delete_bank_commits af ms table user B :
  List.NoDup (map id table) -> In B table -> is_deleted B = false ->
  has_membership ms (users_schemas.id user) (organisation_id B) = true ->
  snd (delete_bank (id B) user (open_session af ms table))
  = open_session af ms
      (map (fun r => if String.eqb (id r) (id B) then set_is_deleted true r else r) table).
Proof.
  intros Hnd Hin Hlive Hmem. unfold delete_bank.
  rewrite (bind_Ok _ _ _ _ _ (fetch_bank_found af ms table user B Hnd Hin Hlive)).
  rewrite (bind_Ok _ _ _ _ _ (getattr_open_session af ms table B Hnd Hin)).
  rewrite (bind_Ok _ _ _ _ _ (is_organization_member_open_session af ms table _ _)).
  rewrite Hmem. cbn [negb].
  unfold bind, setattr, state_of, commit, refresh, ret, flush. simpl.
  rewrite by_id_unique by assumption. simpl.
  rewrite app_nil_r.
  rewrite (write_back_one table B) by reflexivity.
  rewrite (map_unique_row table B (set_is_deleted true) (fun r => r)) by assumption.
  reflexivity.
Qed.

Lemma map_id_mark_deleted table i :
  map id (map (fun r => if String.eqb (id r) i then set_is_deleted true r else r) table)
  = map id table.
Proof.
  rewrite map_map. apply map_ext. intros r.
  destruct (String.eqb (id r) i); reflexivity.
Qed.

(** After [delete_bank], no page of [get_organization_bank_accounts] shows
    the deleted account, whoever asks and whatever the page. *)
Theorem deleted_bank_is_not_listed
    af ms table user B params organization_id user' ps pn page s' :
  List.NoDup (map id table) -> In B table -> is_deleted B = false ->
  has_membership ms (users_schemas.id user) (organisation_id B) = true ->
  get_organization_bank_accounts params organization_id user' ps pn
    (snd (delete_bank (id B) user (open_session af ms table))) = (Ok page, s') ->
  forall r, In r (items page) -> id r <> id B.
Proof.
  intros Hnd Hin Hlive Hmem Hrun r Hr Hid.
  rewrite delete_bank_commits in Hrun by assumption.
  assert (Hnd' : List.NoDup
            (map id (map (fun r => if String.eqb (id r) (id B)
                                   then set_is_deleted true r else r) table)))
    by (rewrite map_id_mark_deleted; exact Hnd).
  destruct (get_organization_bank_accounts_live _ _ _ _ _ _ _ _ _ _ Hnd' Hrun r Hr)
    as [Hl [_ Hin']].
  apply in_map_iff in Hin'. destruct Hin' as [r0 [Hr0 _]].
  destruct (String.eqb_spec (id r0) (id B)) as [_|Hne].
  - subst r. simpl in Hl. discriminate.
  - subst r. contradiction.
Qed.

Lemma deleted_bank_is_not_listed_witness :
  id (account "b0" "org1" "10" true false) <> id (account "b1" "org1" "11" false false).
Proof.
  apply (deleted_bank_is_not_listed false members
           [account "b0" "org1" "10" true false; account "b1" "org1" "11" false false]
           u1 (account "b1" "org1" "11" false false)
           {| page := 1; size := 50 |} "org1" u1 15 1
           (paginate {| page := 1; size := 50 |} [account "b0" "org1" "10" true false])
           (open_session false members
              [account "b0" "org1" "10" true false; account "b1" "org1" "11" false true])).
  - repeat (apply List.NoDup_cons; [simpl; intuition discriminate|]); apply List.NoDup_nil.
  - simpl. right. left. reflexivity.
  - reflexivity.
  - reflexivity.
  - vm_compute. reflexivity.
  - simpl. left. reflexivity.
Defined.

(** A user who is no member of the organization a request names cannot add
    an account to it: [add_bank_detail] raises [Forbidden] and stores
    nothing. *)
Theorem add_bank_detail_forbidden af ms table new_id bank user :
  has_membership ms (users_schemas.id user) (bank_schemas.organisation_id bank) = false ->
  add_bank_detail new_id bank user (open_session af ms table)
  = (Raise (HTTPException HTTP_403_FORBIDDEN
              "You are not allowed to add a bank account to this organization"),
     open_session af ms table).
Proof.
  intros Hmem. unfold add_bank_detail.
  rewrite (bind_Ok _ _ _ _ _ (is_organization_member_open_session af ms table _ _)).
  rewrite Hmem. reflexivity.
Qed.

Lemma add_bank_detail_forbidden_witness :
  add_bank_detail "b9" (request "org1" true) u2
    (open_session true members [account "b1" "org1" "11" false false])
  = (Raise (HTTPException HTTP_403_FORBIDDEN
              "You are not allowed to add a bank account to this organization"),
     open_session true members [account "b1" "org1" "11" false false]).
Proof.
  apply (add_bank_detail_forbidden true members [account "b1" "org1" "11" false false]
           "b9" (request "org1" true) u2).
  reflexivity.
Defined.

(** A user who is no member of the organization gets [Forbidden] from
    [get_organization_bank_accounts], whatever the table holds. *)
Theorem get_organization_bank_accounts_forbidden
    af ms table params organization_id user ps pn :
  has_membership ms (users_schemas.id user) organization_id = false ->
  get_organization_bank_accounts params organization_id user ps pn
    (open_session af ms table)
  = (Raise (HTTPException HTTP_403_FORBIDDEN
              "You are not allowed to access this resource"),
     open_session af ms table).
Proof.
  intros Hmem. unfold get_organization_bank_accounts.
  rewrite (bind_Ok _ _ _ _ _ (is_organization_member_open_session af ms table _ _)).
  rewrite Hmem. reflexivity.
Qed.

Lemma get_organization_bank_accounts_forbidden_witness :
  get_organization_bank_accounts {| page := 1; size := 50 |} "org1" u2 15 1
    (open_session false members [account "b1" "org1" "11" false false])
  = (Raise (HTTPException HTTP_403_FORBIDDEN
              "You are not allowed to access this resource"),
     open_session false members [account "b1" "org1" "11" false false]).
Proof.
  apply (get_organization_bank_accounts_forbidden false members
           [account "b1" "org1" "11" false false]
           {| page := 1; size := 50 |} "org1" u2 15 1).
  reflexivity.
Defined.

(** For a member, the page of [get_organization_bank_accounts] holds at
    most [size] accounts, all of them live accounts of the organization, and
    its total is the number of live accounts of the organization. *)
Theorem get_organization_bank_accounts_contents
    af ms table params organization_id user ps pn :
  List.NoDup (map id table) ->
  has_membership ms (users_schemas.id user) organization_id = true ->
  exists page,
    get_organization_bank_accounts params organization_id user ps pn
      (open_session af ms table) = (Ok page, open_session af ms table)
    /\ (List.length (items page) <= size params)%nat
    /\ total page
       = List.length
           (List.filter (fun r => String.eqb (organisation_id r) organization_id
                                  && negb (is_deleted r)) table)
    /\ forall r, In r (items page) ->
         In r table /\ organisation_id r = organization_id /\ is_deleted r = false.
Proof.
  intros Hnd Hmem. eexists. split; [|split; [|split]].
  - apply get_organization_bank_accounts_page; assumption.
  - unfold paginate. cbn [items]. apply firstn_le_length.
  - unfold paginate. cbn [total]. apply f_equal. apply filter_ext. intros r.
    destruct (is_deleted r); reflexivity.
  - intros r Hr. apply paginate_items_incl in Hr.
    apply filter_In in Hr. destruct Hr as [Hin Hp].
    apply andb_true_iff in Hp. destruct Hp as [Ho Hd].
    apply String.eqb_eq in Ho. apply Bool.eqb_prop in Hd. auto.
Qed.

Lemma get_organization_bank_accounts_contents_witness :
  exists page,
    get_organization_bank_accounts {| page := 1; size := 1 |} "org1" u1 15 1
      (open_session false members
         [account "b0" "org1" "10" true false; account "b1" "org1" "11" false true;
          account "b2" "org1" "12" false false])
    = (Ok page,
       open_session false members
         [account "b0" "org1" "10" true false; account "b1" "org1" "11" false true;
          account "b2" "org1" "12" false false])
    /\ (List.length (items page) <= size {| page := 1; size := 1 |})%nat
    /\ total page
       = List.length
           (List.filter (fun r => String.eqb (organisation_id r) "org1"
                                  && negb (is_deleted r))
              [account "b0" "org1" "10" true false; account "b1" "org1" "11" false true;
               account "b2" "org1" "12" false false])
    /\ forall r, In r (items page) ->
         In r [account "b0" "org1" "10" true false; account "b1" "org1" "11" false true;
               account "b2" "org1" "12" false false]
         /\ organisation_id r = "org1" /\ is_deleted r = false.
Proof.
  apply (get_organization_bank_accounts_contents false members
           [account "b0" "org1" "10" true false; account "b1" "org1" "11" false true;
            account "b2" "org1" "12" false false]
           {| page := 1; size := 1 |} "org1" u1 15 1).
  - repeat (apply List.NoDup_cons; [simpl; intuition discriminate|]); apply List.NoDup_nil.
  - reflexivity.
Defined.

Lemma by_id_app_fresh table o :
  ~ In (id o) (map id table) -> by_id (id o) (table ++ [o]) = Some o.
Proof.
  unfold by_id. induction table as [|r table IH]; simpl; intros Hfresh.
  - rewrite String.eqb_refl. reflexivity.
  - destruct (String.eqb_spec (id r) (id o)) as [Heq|_].
    + exfalso. apply Hfresh. left. exact Heq.
    + apply IH. intros H. apply Hfresh. right. exact H.
Qed.

(** A member of the organization the request names, with an id that no row
    has yet, gets the new account back from [add_bank_detail]: it carries
    the attributes of the request, the caller as creator, and is not
    deleted; its row is appended and the rows there stay as they are. *)
Theorem add_bank_detail_stores af ms table new_id bank user :
  has_membership ms (users_schemas.id user) (bank_schemas.organisation_id bank) = true ->
  ~ In new_id (map id table) ->
  add_bank_detail new_id bank user (open_session af ms table)
  = (Ok (new_bank new_id bank user),
     open_session af ms (table ++ [new_bank new_id bank user]))
  /\ creator_id (new_bank new_id bank user) = users_schemas.id user
  /\ organisation_id (new_bank new_id bank user) = bank_schemas.organisation_id bank
  /\ is_deleted (new_bank new_id bank user) = false.
Proof.
  intros Hmem Hfresh. split; [|repeat split].
  unfold add_bank_detail.
  rewrite (bind_Ok _ _ _ _ _ (is_organization_member_open_session af ms table _ _)).
  rewrite Hmem. cbn [negb].
  unfold add_bank, bind, add, commit, refresh, flush, from_orm, getattr, state_of. simpl.
  rewrite write_back_nil.
  pose proof (by_id_app_fresh table (new_bank new_id bank user) Hfresh) as Hb.
  change (id (new_bank new_id bank user)) with new_id in Hb.
  rewrite Hb. reflexivity.
Qed.

Lemma add_bank_detail_stores_witness :
  add_bank_detail "b2" (request "org1" true) u1
    (open_session false members [account "b1" "org1" "11" true false])
  = (Ok (new_bank "b2" (request "org1" true) u1),
     open_session false members
       [account "b1" "org1" "11" true false; new_bank "b2" (request "org1" true) u1])
  /\ creator_id (new_bank "b2" (request "org1" true) u1) = users_schemas.id u1
  /\ organisation_id (new_bank "b2" (request "org1" true) u1)
     = bank_schemas.organisation_id (request "org1" true)
  /\ is_deleted (new_bank "b2" (request "org1" true) u1) = false.
Proof.
  apply (add_bank_detail_stores false members [account "b1" "org1" "11" true false]
           "b2" (request "org1" true) u1).
  - reflexivity.
  - simpl. intuition discriminate.
Defined.

(** An update that does not mark the account preferred rewrites the row of
    the account with the request and nothing else: every other row stays,
    and the account keeps its id, organization, creator, creation time and
    soft-delete flag, whatever organization the request names. *)
Theorem update_bank_details_replaces af ms table bank user B :
  List.NoDup (map id table) -> In B table -> is_deleted B = false ->
  has_membership ms (users_schemas.id user) (bank_schemas.organisation_id bank) = true ->
  bank_schemas.is_preferred bank = false ->
  update_bank_details (id B) bank user (open_session af ms table)
  = (Ok (assign_bank bank B),
     open_session af ms
       (map (fun r => if String.eqb (id r) (id B) then assign_bank bank r else r) table))
  /\ id (assign_bank bank B) = id B
  /\ organisation_id (assign_bank bank B) = organisation_id B
  /\ creator_id (assign_bank bank B) = creator_id B
  /\ date_created (assign_bank bank B) = date_created B
  /\ is_deleted (assign_bank bank B) = is_deleted B.
Proof.
  intros Hnd Hin Hlive Hmem Hpref. split; [|repeat split].
  unfold update_bank_details.
  rewrite (bind_Ok _ _ _ _ _ (is_organization_member_open_session af ms table _ _)).
  rewrite Hmem. cbn [negb].
  rewrite (bind_Ok _ _ _ _ _ (fetch_bank_found af ms table user B Hnd Hin Hlive)).
  rewrite Hpref.
  unfold bind, setattr, state_of, commit, refresh, update_bank, from_orm,
    getattr, state_of, ret, flush. simpl.
  rewrite (by_id_unique table B Hnd Hin). simpl.
  unfold bind, commit, refresh, flush. simpl.
  rewrite app_nil_r.
  rewrite (write_back_one table B) by reflexivity.
  match goal with
  | |- context [by_id (id B) ?l] =>
      assert (Hb : by_id (id B) l = Some (assign_bank bank B))
  end.
  { unfold by_id. clear - Hin.
    induction table as [|r table IH]; simpl in *; [contradiction|].
    destruct (String.eqb_spec (id r) (id B)) as [Heq|Hneq]; simpl.
    - rewrite String.eqb_refl. reflexivity.
    - destruct Hin as [->|Hin]; [congruence|].
      destruct (String.eqb_spec (id r) (id B)); [congruence|].
      apply IH, Hin. }
  rewrite Hb.
  rewrite (map_unique_row table B (assign_bank bank) (fun r => r)) by assumption.
  reflexivity.
Qed.

Lemma update_bank_details_replaces_witness :
  update_bank_details "b1" (request "org1" false) u1
    (open_session true members
       [account "b0" "org1" "10" true false; account "b1" "org1" "11" false false])
  = (Ok (assign_bank (request "org1" false) (account "b1" "org1" "11" false false)),
     open_session true members
       [account "b0" "org1" "10" true false; account "b1" "org1" "22" false false])
  /\ id (assign_bank (request "org1" false) (account "b1" "org1" "11" false false))
     = id (account "b1" "org1" "11" false false)
  /\ organisation_id (assign_bank (request "org1" false) (account "b1" "org1" "11" false false))
     = organisation_id (account "b1" "org1" "11" false false)
  /\ creator_id (assign_bank (request "org1" false) (account "b1" "org1" "11" false false))
     = creator_id (account "b1" "org1" "11" false false)
  /\ date_created (assign_bank (request "org1" false) (account "b1" "org1" "11" false false))
     = date_created (account "b1" "org1" "11" false false)
  /\ is_deleted (assign_bank (request "org1" false) (account "b1" "org1" "11" false false))
     = is_deleted (account "b1" "org1" "11" false false).
Proof.
  apply (update_bank_details_replaces true members
           [account "b0" "org1" "10" true false; account "b1" "org1" "11" false false]
           (request "org1" false) u1 (account "b1" "org1" "11" false false)).
  - repeat (apply List.NoDup_cons; [simpl; intuition discriminate|]); apply List.NoDup_nil.
  - simpl. right. left. reflexivity.
  - reflexivity.
  - reflexivity.
  - reflexivity.
Defined.

Lemma update_bank_details_forbidden_witness :
  update_bank_details "nowhere" (request "org1" true) u2
    (open_session true members [account "b1" "org1" "11" false false])
  = (Raise (HTTPException HTTP_403_FORBIDDEN
              "You are not allowed to carry out this operation"),
     open_session true members [account "b1" "org1" "11" false false]).
Proof.
  apply (update_bank_details_forbidden true members [account "b1" "org1" "11" false false]
           "nowhere" (request "org1" true) u2).
  reflexivity.
Defined.

Lemma update_bank_details_moves_preference_witness :
  update_bank_details "b1" (request "org1" true) u1
    (open_session false members
       [account "b0" "org1" "10" true false; account "b1" "org1" "11" false false;
        account "b2" "org2" "12" false false])
  = (Ok (assign_bank (request "org1" true) (account "b1" "org1" "11" false false)),
     open_session false members
       [account "b0" "org1" "10" false false; account "b1" "org1" "22" true false;
        account "b2" "org2" "12" false false]).
Proof.
  apply (update_bank_details_moves_preference members
           [account "b0" "org1" "10" true false; account "b1" "org1" "11" false false;
            account "b2" "org2" "12" false false]
           (request "org1" true) u1 (account "b1" "org1" "11" false false)
           (account "b0" "org1" "10" true false)).
  - repeat (apply List.NoDup_cons; [simpl; intuition discriminate|]); apply List.NoDup_nil.
  - simpl. right. left. reflexivity.
  - reflexivity.
  - reflexivity.
  - reflexivity.
  - reflexivity.
  - discriminate.
Defined.

Lemma delete_bank_forbidden_witness :
  delete_bank "b1" u2
    (open_session false members
       [account "b0" "org1" "10" true false; account "b1" "org1" "11" false false])
  = (Raise (HTTPException HTTP_403_FORBIDDEN
              "You are not allowed to carry out this operation"),
     open_session false members
       [account "b0" "org1" "10" true false; account "b1" "org1" "11" false false]).
Proof.
  apply (delete_bank_forbidden false members
           [account "b0" "org1" "10" true false; account "b1" "org1" "11" false false]
           u2 (account "b1" "org1" "11" false false)).
  - repeat (apply List.NoDup_cons; [simpl; intuition discriminate|]); apply List.NoDup_nil.
  - simpl. right. left. reflexivity.
  - reflexivity.
  - reflexivity.
Defined.

End bank_coverage.

(** ** The country schema table *)

Module validator_coverage.
Import banks validator_scenarios validator_properties.

Lemma validate_supported_country_contains (country_info : gmap string json) country :
  validate_supported_country country_info country = contains country_info country.
Proof.
  destruct (contains country_info country) eqn:Hc.
  - apply validate_supported_country_spec. unfold contains in Hc.
    apply bool_decide_eq_true in Hc. exact Hc.
  - destruct (validate_supported_country country_info country) eqn:Hv; [|reflexivity].
    apply validate_supported_country_spec in Hv. destruct Hv as [e He].
    rewrite (contains_Some _ _ _ He) in Hc. discriminate.
Qed.

(** For a country that [validate_bank_details] reports as supported,
    [get_country_data] without [info], or with an empty one, returns the
    entry of that very country; the entry "others" plays no part and need
    not exist. *)
Theorem supported_country_has_own_data (country_info : gmap string json) country :
  validate_bank_details country_info country = true ->
  exists entry,
    country_info !! country = Some entry
    /\ get_country_data country_info country None = Ok entry
    /\ get_country_data country_info country (Some "") = Ok entry.
Proof.
  unfold validate_bank_details. intros Hv.
  apply validate_supported_country_spec in Hv. destruct Hv as [entry He].
  exists entry. split; [exact He|].
  unfold get_country_data, table_getitem. rewrite (contains_Some _ _ _ He), He.
  split; reflexivity.
Qed.

Lemma supported_country_has_own_data_witness :
  exists entry,
    delete "others" sample_table !! "Ghana" = Some entry
    /\ get_country_data (delete "others" sample_table) "Ghana" None = Ok entry
    /\ get_country_data (delete "others" sample_table) "Ghana" (Some "") = Ok entry.
Proof.
  apply (supported_country_has_own_data (delete "others" sample_table) "Ghana").
  vm_compute. reflexivity.
Defined.

(** On a table without the entry "others", [get_country_data] raises
    [KeyError] for "others" on every country that [validate_bank_details]
    reports as unsupported, with or without [info]. *)
Theorem unsupported_country_needs_others (country_info : gmap string json) country info :
  country_info !! "others" = None ->
  validate_bank_details country_info country = false ->
  get_country_data country_info country info = Raise (KeyError "others").
Proof.
  unfold validate_bank_details. intros Ho Hv.
  rewrite validate_supported_country_contains in Hv.
  unfold get_country_data, table_getitem, getitem_info. rewrite Hv, Ho.
  destruct info; reflexivity.
Qed.

Lemma unsupported_country_needs_others_witness :
  get_country_data (delete "others" sample_table) "Nigeria" (Some "schema")
  = Raise (KeyError "others").
Proof.
  apply (unsupported_country_needs_others (delete "others" sample_table) "Nigeria"
           (Some "schema")).
  - vm_compute. reflexivity.
  - vm_compute. reflexivity.
Defined.

(** A non-empty [info] that is no key of the entry [get_country_data]
    resolves the country to raises [KeyError] for that [info]; and when the
    resolved entry is no JSON object at all, [TypeError]. *)
Theorem get_country_data_missing_field (country_info : gmap string json) others country key :
  country_info !! "others" = Some others ->
  key <> "" ->
  (forall d, default others (country_info !! country) = JDict d -> d !! key = None ->
     get_country_data country_info country (Some key) = Raise (KeyError key))
  /\ ((forall d, default others (country_info !! country) <> JDict d) ->
      get_country_data country_info country (Some key) = Raise TypeError).
Proof.
  intros Ho Hkey. apply String.eqb_neq in Hkey.
  unfold get_country_data, table_getitem, getitem_info, truthy.
  destruct (country_info !! country) as [entry|] eqn:Hc; simpl.
  - rewrite (contains_Some _ _ _ Hc), Hkey. simpl. split.
    + intros d -> Hd. simpl. rewrite Hd. reflexivity.
    + intros Hnd. destruct entry; try reflexivity. exfalso. eapply Hnd. reflexivity.
  - rewrite (contains_None _ _ Hc), Ho. simpl. split.
    + intros d -> Hd. simpl. rewrite Hd. reflexivity.
    + intros Hnd. destruct others; try reflexivity. exfalso. eapply Hnd. reflexivity.
Qed.

Lemma get_country_data_missing_field_witness :
  (forall d, default others_entry (sample_table !! "Ghana") = JDict d ->
     d !! "currency" = None ->
     get_country_data sample_table "Ghana" (Some "currency") = Raise (KeyError "currency"))
  /\ ((forall d, default others_entry (sample_table !! "Ghana") <> JDict d) ->
      get_country_data sample_table "Ghana" (Some "currency") = Raise TypeError).
Proof.
  apply (get_country_data_missing_field sample_table others_entry "Ghana" "currency").
  - vm_compute. reflexivity.
  - discriminate.
Defined.

(** [validate_bank_details] answers whether the country is a key of the
    table, compared as it is written: no other spelling of a key counts. *)
Theorem validate_bank_details_exact (country_info : gmap string json) country :
  validate_bank_details country_info country = true
  <-> is_Some (country_info !! country).
Proof. unfold validate_bank_details. apply validate_supported_country_spec. Qed.

End validator_coverage.

(** ** Reading and updating customers *)

Module customer_coverage.
Import customer_models customer_scenarios customer_properties.

(** *** Pages *)

Lemma HdRel_firstn {A} (R : A -> A -> Prop) a n l :
  HdRel R a l -> HdRel R a (firstn n l).
Proof. intros H. destruct n, l; simpl; try constructor. inversion H; assumption. Qed.

Lemma Sorted_firstn {A} (R : A -> A -> Prop) n l :
  Sorted R l -> Sorted R (firstn n l).
Proof.
  revert l. induction n as [|n IH]; intros l Hs; simpl; [constructor|].
  destruct l as [|x l]; [constructor|].
  inversion Hs; subst. constructor; [apply IH; assumption|].
  apply HdRel_firstn. assumption.
Qed.

Lemma Sorted_skipn {A} (R : A -> A -> Prop) n l :
  Sorted R l -> Sorted R (skipn n l).
Proof.
  revert l. induction n as [|n IH]; intros l Hs; simpl; [exact Hs|].
  destruct l as [|x l]; [constructor|].
  inversion Hs; subst. apply IH. assumption.
Qed.

Lemma offset_limit_length offset size l :
  (List.length (offset_limit offset size l) <= size)%nat.
Proof. unfold offset_limit. apply firstn_le_length. Qed.

Lemma offset_limit_Sorted (R : Customer -> Customer -> Prop) offset size l :
  Sorted R l -> Sorted R (offset_limit offset size l).
Proof. intros H. unfold offset_limit. apply Sorted_firstn, Sorted_skipn, H. Qed.

Lemma firstn_plus {A} a b (l : list A) :
  (firstn a l ++ firstn b (skipn a l))%list = firstn (a + b) l.
Proof.
  revert l. induction a as [|a IH]; intros l; simpl; [reflexivity|].
  destruct l as [|x l]; simpl.
  - rewrite firstn_nil. reflexivity.
  - rewrite IH. reflexivity.
Qed.

Lemma offset_limit_join offset a b l :
  (offset_limit offset a l ++ offset_limit (offset + a) b l)%list
  = offset_limit offset (a + b) l.
Proof.
  unfold offset_limit. rewrite <- firstn_plus. rewrite skipn_skipn.
  rewrite (Nat.add_comm a offset). reflexivity.
Qed.

Lemma offset_limit_all l : offset_limit 0 (List.length l) l = l.
Proof. unfold offset_limit. simpl. apply firstn_all. Qed.

Lemma offset_limit_covers size l :
  (List.length l <= size)%nat -> offset_limit 0 size l = l.
Proof. intros H. unfold offset_limit. simpl. apply firstn_all2. exact H. Qed.

Lemma order_by_length leb l : List.length (order_by leb l) = List.length l.
Proof. apply Permutation_length, order_by_Permutation. Qed.

Lemma live_customers_length organization_id db :
  (List.length (live_customers organization_id db) <= List.length db)%nat.
Proof. unfold live_customers. apply filter_length_le. Qed.

(** *** [fetch_customers] *)

(** [fetch_customers] returns at most [size] customers, latest first, each
    of them a customer of the table that belongs to the organization and is
    not soft-deleted. *)
Theorem fetch_customers_result organization_id offset size db :
  (List.length (fetch_customers organization_id offset size db) <= size)%nat
  /\ Sorted (fun a b => date_created b <= date_created a)
       (fetch_customers organization_id offset size db)
  /\ forall r, In r (fetch_customers organization_id offset size db) ->
       In r db /\ customer_models.organization_id r = organization_id
       /\ is_deleted r = false.
Proof.
  rewrite fetch_customers_page. split; [|split].
  - apply offset_limit_length.
  - apply offset_limit_Sorted, order_by_date_created_Sorted.
  - intros r Hr. apply In_offset_limit, In_order_by in Hr.
    apply In_live_customers. exact Hr.
Qed.

(** Two pages of [fetch_customers] that follow one another join into the
    page of their sizes together: no customer is dropped or repeated between
    pages. *)
Theorem fetch_customers_pages_join organization_id offset a b db :
  (fetch_customers organization_id offset a db
   ++ fetch_customers organization_id (offset + a) b db)%list
  = fetch_customers organization_id offset (a + b) db.
Proof. rewrite !fetch_customers_page. apply offset_limit_join. Qed.

(** From offset 0 and with a size of at least the number of rows,
    [fetch_customers] returns every live customer of the organization. *)
Theorem fetch_customers_complete organization_id size db r :
  (List.length db <= size)%nat ->
  In r db -> customer_models.organization_id r = organization_id ->
  is_deleted r = false ->
  In r (fetch_customers organization_id 0 size db).
Proof.
  intros Hsize Hin Horg Hlive. rewrite fetch_customers_page.
  rewrite offset_limit_covers.
  - apply (Permutation_in _ (Permutation_sym (order_by_Permutation _ _))).
    apply In_live_customers. auto.
  - rewrite order_by_length.
    etransitivity; [apply live_customers_length | exact Hsize].
Qed.

Lemma fetch_customers_complete_witness :
  In amy (fetch_customers "org1" 0 50 [jane; jan; bob; amy]).
Proof.
  apply (fetch_customers_complete "org1" 50 [jane; jan; bob; amy] amy).
  - simpl. lia.
  - simpl. right. right. right. left. reflexivity.
  - reflexivity.
  - reflexivity.
Defined.

(** *** [search_customers] *)

(** For a text without wildcards and a LIKE that compares characters as
    they are, [LIKE text] is equality with the text. *)
Lemma like_plain_eqb text s :
  plain text = true -> like false text s = String.eqb text s.
Proof.
  intros Hp. rewrite like_plain_equal_by by exact Hp. apply equal_by_eqb.
Qed.

(** A text without wildcards that occurs in a value, or is the value, is
    like it, however LIKE compares letters. *)
Lemma like_of_occurs_in nocase text s :
  plain text = true -> occurs_in text s = true ->
  like nocase ("%" ++ text ++ "%") s = true.
Proof.
  intros Hp H. rewrite like_plain_occurs_by by exact Hp.
  apply occurs_by_weaken. rewrite occurs_by_eqb. exact H.
Qed.

Lemma like_of_eq nocase text :
  plain text = true -> like nocase text text = true.
Proof.
  intros Hp. rewrite like_plain_equal_by by exact Hp.
  apply equal_by_weaken. rewrite equal_by_eqb. apply String.eqb_refl.
Qed.

Lemma char_eqb_same nocase a b :
  char_eqb nocase a b = true -> if nocase then lower a = lower b else a = b.
Proof. unfold char_eqb. destruct nocase; apply Ascii.eqb_eq. Qed.

Lemma equal_by_same nocase text s :
  equal_by (char_eqb nocase) text s = true -> same_text nocase s text.
Proof.
  revert s. induction text as [|a text IH]; intros s; destruct s as [|b s];
    cbn [equal_by]; try discriminate.
  - intros _. unfold same_text. destruct nocase; reflexivity.
  - intros H. apply andb_true_iff in H. destruct H as [H1 H2].
    apply char_eqb_same in H1. apply IH in H2. unfold same_text in *.
    destruct nocase; cbn [lower_string]; rewrite H1, H2; reflexivity.
Qed.

Lemma prefix_by_split eq text s :
  prefix_by eq text s = true ->
  exists mid post, s = mid ++ post /\ equal_by eq text mid = true.
Proof.
  revert s. induction text as [|a text IH]; intros s H.
  - exists "", s. split; reflexivity.
  - destruct s as [|b s]; [discriminate|]. cbn [prefix_by] in H.
    apply andb_true_iff in H. destruct H as [H1 H2].
    destruct (IH s H2) as [mid [post [-> Hmid]]].
    exists (String b mid), post. split; [reflexivity|].
    cbn [equal_by]. rewrite H1, Hmid. reflexivity.
Qed.

Lemma occurs_by_split eq text s :
  occurs_by eq text s = true ->
  exists pre mid post, s = pre ++ mid ++ post /\ equal_by eq text mid = true.
Proof.
  induction s as [|a s IH]; cbn [occurs_by]; intros H;
    apply orb_true_iff in H; destruct H as [H|H]; try discriminate.
  - destruct (prefix_by_split eq text _ H) as [mid [post [Hs Hmid]]].
    exists "", mid, post. split; assumption.
  - destruct (prefix_by_split eq text _ H) as [mid [post [Hs Hmid]]].
    exists "", mid, post. split; assumption.
  - destruct (IH H) as [pre [mid [post [-> Hmid]]]].
    exists (String a pre), mid, post. split; [reflexivity | exact Hmid].
Qed.

Lemma occurs_by_has_text nocase text s :
  occurs_by (char_eqb nocase) text s = true -> has_text nocase text s.
Proof.
  intros H. destruct (occurs_by_split _ _ _ H) as [pre [mid [post [Hs Hmid]]]].
  exists pre, mid, post. split; [exact Hs | apply equal_by_same, Hmid].
Qed.

(** The result of [search_customers] is the name matches followed by the
    id matches, each at most [size] long and latest first; the first are
    rows whose first or last name is LIKE the text between two [%], the
    second rows whose unique id or short id is LIKE the text itself,
    however the LIKE of the database compares letters. *)
Theorem search_customers_shape nocase organization_id search_value offset size db :
  exists names ids,
    search_customers nocase organization_id search_value offset size db
    = (names ++ ids)%list
    /\ (List.length names <= size)%nat /\ (List.length ids <= size)%nat
    /\ Sorted (fun a b => date_created b <= date_created a) names
    /\ Sorted (fun a b => date_created b <= date_created a) ids
    /\ (forall r, In r names ->
          like nocase ("%" ++ search_value ++ "%") (first_name r) = true
          \/ like nocase ("%" ++ search_value ++ "%") (last_name r) = true)
    /\ (forall r, In r ids ->
          like nocase search_value (unique_id r) = true
          \/ like nocase search_value (customer_id r) = true).
Proof.
  eexists. eexists. split; [apply search_customers_parts|].
  split; [apply offset_limit_length|].
  split; [apply offset_limit_length|].
  split; [apply offset_limit_Sorted, order_by_date_created_Sorted|].
  split; [apply offset_limit_Sorted, order_by_date_created_Sorted|].
  split; intros r Hr; apply In_offset_limit, In_order_by, filter_In in Hr;
    destruct Hr as [_ Hr]; apply orb_true_iff in Hr; exact Hr.
Qed.

(** For a text without wildcards, every customer [search_customers] returns
    is a live customer of the organization whose first or last name has a
    part that is the same as the text, or whose unique id or short id is
    the same as the text: the same without the case of ASCII letters when
    LIKE compares without it, and letter for letter when LIKE compares
    letters as they are. *)
Theorem search_customers_sound nocase organization_id search_value offset size db r :
  plain search_value = true ->
  In r (search_customers nocase organization_id search_value offset size db) ->
  (In r db /\ customer_models.organization_id r = organization_id
   /\ is_deleted r = false)
  /\ (has_text nocase search_value (first_name r)
      \/ has_text nocase search_value (last_name r)
      \/ same_text nocase (unique_id r) search_value
      \/ same_text nocase (customer_id r) search_value)
  /\ (nocase = false ->
      occurs_in search_value (first_name r) = true
      \/ occurs_in search_value (last_name r) = true
      \/ unique_id r = search_value
      \/ customer_id r = search_value).
Proof.
  intros Hp Hr. split; [|split].
  - apply In_live_customers, (search_customers_live _ _ _ _ _ _ _ Hr).
  - rewrite search_customers_parts in Hr. apply in_app_or in Hr.
    destruct Hr as [Hr|Hr]; apply In_offset_limit, In_order_by, filter_In in Hr;
      destruct Hr as [_ Hr]; apply orb_true_iff in Hr.
    + rewrite !like_plain_occurs_by in Hr by exact Hp.
      destruct Hr as [Hr|Hr]; apply occurs_by_has_text in Hr; auto.
    + rewrite !like_plain_equal_by in Hr by exact Hp.
      destruct Hr as [Hr|Hr]; apply equal_by_same in Hr; auto.
  - intros ->. rewrite search_customers_parts in Hr. apply in_app_or in Hr.
    destruct Hr as [Hr|Hr]; apply In_offset_limit, In_order_by, filter_In in Hr;
      destruct Hr as [_ Hr]; apply orb_true_iff in Hr.
    + rewrite !like_plain_occurs in Hr by exact Hp. tauto.
    + rewrite !like_plain_eqb in Hr by exact Hp.
      rewrite !String.eqb_eq in Hr. destruct Hr as [Hr|Hr]; auto.
Qed.

Lemma search_customers_sound_witness :
  (In jane [jane; jan; bob; amy] /\ customer_models.organization_id jane = "org1"
   /\ is_deleted jane = false)
  /\ (has_text true "jan" (first_name jane)
      \/ has_text true "jan" (last_name jane)
      \/ same_text true (unique_id jane) "jan"
      \/ same_text true (customer_id jane) "jan")
  /\ (true = false ->
      occurs_in "jan" (first_name jane) = true
      \/ occurs_in "jan" (last_name jane) = true
      \/ unique_id jane = "jan"
      \/ customer_id jane = "jan").
Proof.
  apply (search_customers_sound true "org1" "jan" 0 50 [jane; jan; bob; amy] jane).
  - reflexivity.
  - vm_compute. left. reflexivity.
Defined.

(** For a text without wildcards, from offset 0 and with a size of at least
    the number of rows, [search_customers] returns every live customer of
    the organization whose first or last name contains the text, and every
    one whose unique id or short id is the text, however the LIKE of the
    database compares letters. *)
Theorem search_customers_complete nocase organization_id search_value size db r :
  plain search_value = true ->
  (List.length db <= size)%nat ->
  In r db -> customer_models.organization_id r = organization_id ->
  is_deleted r = false ->
  occurs_in search_value (first_name r) = true
  \/ occurs_in search_value (last_name r) = true
  \/ unique_id r = search_value
  \/ customer_id r = search_value ->
  In r (search_customers nocase organization_id search_value 0 size db).
Proof.
  intros Hp Hsize Hin Horg Hlive Hmatch.
  assert (Hl : In r (live_customers organization_id db))
    by (apply In_live_customers; auto).
  rewrite search_customers_parts.
  assert (Hcover : forall p,
            offset_limit 0 size
              (order_by (desc c_date_created)
                 (List.filter p (live_customers organization_id db)))
            = order_by (desc c_date_created)
                (List.filter p (live_customers organization_id db))).
  { intros p. apply offset_limit_covers. rewrite order_by_length.
    etransitivity; [apply filter_length_le|].
    etransitivity; [apply live_customers_length | exact Hsize]. }
  rewrite !Hcover. apply in_or_app.
  destruct Hmatch as [H|[H|[H|H]]].
  - left. apply (Permutation_in _ (Permutation_sym (order_by_Permutation _ _))).
    apply filter_In. split; [exact Hl|].
    rewrite (like_of_occurs_in nocase _ _ Hp H). reflexivity.
  - left. apply (Permutation_in _ (Permutation_sym (order_by_Permutation _ _))).
    apply filter_In. split; [exact Hl|].
    rewrite (like_of_occurs_in nocase _ _ Hp H). apply orb_true_r.
  - right. apply (Permutation_in _ (Permutation_sym (order_by_Permutation _ _))).
    apply filter_In. split; [exact Hl|].
    rewrite H, (like_of_eq nocase _ Hp). reflexivity.
  - right. apply (Permutation_in _ (Permutation_sym (order_by_Permutation _ _))).
    apply filter_In. split; [exact Hl|].
    rewrite H, (like_of_eq nocase _ Hp). apply orb_true_r.
Qed.

Lemma search_customers_complete_witness :
  In amy (search_customers true "org1" "Li" 0 50 [jane; jan; bob; amy]).
Proof.
  apply (search_customers_complete true "org1" "Li" 50 [jane; jan; bob; amy] amy).
  - reflexivity.
  - simpl. lia.
  - simpl. right. right. right. left. reflexivity.
  - reflexivity.
  - reflexivity.
  - right. left. reflexivity.
Defined.

(** *** [get_customer_by_id] *)

(** [get_customer_by_id] returns a customer of the table with the short id
    asked for, the first in row order; it raises, with a validation error
    and not [NotFound], exactly when no row has that short id. *)
Theorem get_customer_by_id_result customer_id db :
  (forall c, get_customer_by_id customer_id db = Ok c ->
     In c db /\ customer_models.customer_id c = customer_id)
  /\ (get_customer_by_id customer_id db = Raise ValidationError
      <-> forall r, In r db -> customer_models.customer_id r <> customer_id)
  /\ (forall e, get_customer_by_id customer_id db = Raise e -> e = ValidationError).
Proof.
  unfold get_customer_by_id, from_orm.
  destruct (List.find _ db) as [c|] eqn:Hf.
  - apply find_some in Hf. destruct Hf as [Hin Heq]. apply String.eqb_eq in Heq.
    split; [|split].
    + intros c' H. inversion H; subst. auto.
    + split; [discriminate|]. intros H. exfalso. exact (H c Hin Heq).
    + discriminate.
  - split; [|split].
    + discriminate.
    + split; [|reflexivity]. intros _ r Hr Heq.
      pose proof (find_none _ _ Hf r Hr) as Hn. simpl in Hn.
      apply String.eqb_neq in Hn. contradiction.
    + intros e H. inversion H. reflexivity.
Qed.

(** *** [put_customer] *)

(** Partial update: after [put_customer], every column but [region],
    [country_code] and [last_updated] holds the value the request supplies
    for it when that value is truthy, and its value before otherwise;
    [last_updated] holds the current time. *)
Theorem put_customer_partial_update customer customer_instance now db c :
  c <> c_region -> c <> c_country_code -> c <> c_last_updated ->
  read c (fst (put_customer customer customer_instance now db))
  = default (read c customer_instance) (supplied customer c)
  /\ last_updated (fst (put_customer customer customer_instance now db)) = now.
Proof.
  intros Hr Hc Hl. split; [apply put_customer_frame; assumption | reflexivity].
Qed.

Lemma put_customer_partial_update_witness :
  read c_first_name (fst (put_customer (only_first_name "Janet") jane 9 [jane; amy]))
  = default (read c_first_name jane) (supplied (only_first_name "Janet") c_first_name)
  /\ last_updated (fst (put_customer (only_first_name "Janet") jane 9 [jane; amy])) = 9.
Proof.
  apply (put_customer_partial_update (only_first_name "Janet") jane 9 [jane; amy]
           c_first_name); discriminate.
Defined.

Lemma put_customer_only_first_name_witness :
  fst (put_customer (only_first_name "Janet") jane 9 [jane; amy])
  = setattr c_last_updated (VInt 9) (setattr c_first_name (VStr "Janet") jane).
Proof.
  apply (put_customer_only_first_name "Janet" jane 9 [jane; amy]). discriminate.
Defined.

Lemma column_value_frame customer customer_instance now db c v :
  c <> c_region -> c <> c_country_code -> c <> c_last_updated ->
  supplied customer c = None ->
  read c customer_instance = v ->
  read c (fst (put_customer customer customer_instance now db)) = v.
Proof.
  intros Hr Hc Hl Hs Hv. rewrite put_customer_frame by assumption.
  rewrite Hs. exact Hv.
Qed.

(** [put_customer] never changes the id, the short id, the organization,
    the soft-delete flag, the reminder flag or the creation time of the
    customer; and in the table it rewrites the rows of the customer's id
    only: the table keeps its length and every row of another id. *)
Theorem put_customer_keeps_identity customer customer_instance now db :
  id (fst (put_customer customer customer_instance now db)) = id customer_instance
  /\ customer_id (fst (put_customer customer customer_instance now db))
     = customer_id customer_instance
  /\ organization_id (fst (put_customer customer customer_instance now db))
     = organization_id customer_instance
  /\ is_deleted (fst (put_customer customer customer_instance now db))
     = is_deleted customer_instance
  /\ auto_reminder (fst (put_customer customer customer_instance now db))
     = auto_reminder customer_instance
  /\ date_created (fst (put_customer customer customer_instance now db))
     = date_created customer_instance
  /\ snd (put_customer customer customer_instance now db)
     = map (fun r => if String.eqb (id r) (id customer_instance)
                     then fst (put_customer customer customer_instance now db)
                     else r) db.
Proof.
  assert (F : forall c v,
             c <> c_region -> c <> c_country_code -> c <> c_last_updated ->
             supplied customer c = None ->
             read c customer_instance = v ->
             read c (fst (put_customer customer customer_instance now db)) = v)
    by (intros; apply column_value_frame; assumption).
  pose proof (F c_id _ ltac:(discriminate) ltac:(discriminate) ltac:(discriminate)
                eq_refl eq_refl) as H1.
  pose proof (F c_customer_id _ ltac:(discriminate) ltac:(discriminate)
                ltac:(discriminate) eq_refl eq_refl) as H2.
  pose proof (F c_organization_id _ ltac:(discriminate) ltac:(discriminate)
                ltac:(discriminate) eq_refl eq_refl) as H3.
  pose proof (F c_is_deleted _ ltac:(discriminate) ltac:(discriminate)
                ltac:(discriminate) eq_refl eq_refl) as H4.
  pose proof (F c_auto_reminder _ ltac:(discriminate) ltac:(discriminate)
                ltac:(discriminate) eq_refl eq_refl) as H5.
  pose proof (F c_date_created _ ltac:(discriminate) ltac:(discriminate)
                ltac:(discriminate) eq_refl eq_refl) as H6.
  cbn [read] in H1, H2, H3, H4, H5, H6. clear F.
  split; [congruence|]. split; [congruence|]. split; [congruence|].
  split; [congruence|]. split; [congruence|]. split; [congruence|].
  rewrite put_customer_table. unfold write_back. rewrite put_customer_id. reflexivity.
Qed.

Lemma supplied_str_truthy x s : supplied_str x = Some (VStr s) -> s <> "".
Proof.
  unfold supplied_str. destruct x as [t|]; [|discriminate].
  cbn [truthy_str]. destruct (String.eqb_spec t ""); simpl; [discriminate|].
  intros H. inversion H. subst. assumption.
Qed.

Lemma supplied_int_truthy x z : supplied_int x = Some (VInt z) -> z <> 0.
Proof.
  unfold supplied_int. destruct x as [t|]; [|discriminate].
  cbn [truthy_int]. destruct (Z.eqb_spec t 0); simpl; [discriminate|].
  intros H. inversion H. subst. assumption.
Qed.

(** [put_customer] cannot clear a value: a name that is not empty stays not
    empty and an age that is not 0 stays not 0, whatever the request. *)
Theorem put_customer_cannot_clear customer customer_instance now db :
  (first_name customer_instance <> "" ->
   first_name (fst (put_customer customer customer_instance now db)) <> "")
  /\ (last_name customer_instance <> "" ->
      last_name (fst (put_customer customer customer_instance now db)) <> "")
  /\ (email customer_instance <> "" ->
      email (fst (put_customer customer customer_instance now db)) <> "")
  /\ (age customer_instance <> 0 ->
      age (fst (put_customer customer customer_instance now db)) <> 0).
Proof.
  pose proof (put_customer_frame customer customer_instance now db c_first_name
                ltac:(discriminate) ltac:(discriminate) ltac:(discriminate)) as H1.
  pose proof (put_customer_frame customer customer_instance now db c_last_name
                ltac:(discriminate) ltac:(discriminate) ltac:(discriminate)) as H2.
  pose proof (put_customer_frame customer customer_instance now db c_email
                ltac:(discriminate) ltac:(discriminate) ltac:(discriminate)) as H3.
  pose proof (put_customer_frame customer customer_instance now db c_age
                ltac:(discriminate) ltac:(discriminate) ltac:(discriminate)) as H4.
  cbn [read supplied] in H1, H2, H3, H4.
  repeat split; intros Hne.
  - destruct (supplied_str (customer_schemas.first_name customer)) as [v|] eqn:Hs;
      cbv [default from_option Datatypes.id] in H1; [|congruence].
    rewrite <- H1 in Hs. apply supplied_str_truthy in Hs. exact Hs.
  - destruct (supplied_str (customer_schemas.last_name customer)) as [v|] eqn:Hs;
      cbv [default from_option Datatypes.id] in H2; [|congruence].
    rewrite <- H2 in Hs. apply supplied_str_truthy in Hs. exact Hs.
  - destruct (supplied_str (customer_schemas.email customer)) as [v|] eqn:Hs;
      cbv [default from_option Datatypes.id] in H3; [|congruence].
    rewrite <- H3 in Hs. apply supplied_str_truthy in Hs. exact Hs.
  - destruct (supplied_int (customer_schemas.age customer)) as [v|] eqn:Hs;
      cbv [default from_option Datatypes.id] in H4; [|congruence].
    rewrite <- H4 in Hs. apply supplied_int_truthy in Hs. exact Hs.
Qed.

(** A record is its columns. *)
Lemma read_ext a b : (forall c, read c a = read c b) -> a = b.
Proof.
  intros H. destruct a, b.
  pose proof (H c_id) as H1. pose proof (H c_customer_id) as H2.
  pose proof (H c_organization_id) as H3. pose proof (H c_email) as H4.
  pose proof (H c_first_name) as H5. pose proof (H c_last_name) as H6.
  pose proof (H c_unique_id) as H7. pose proof (H c_phone_number) as H8.
  pose proof (H c_business_name) as H9. pose proof (H c_location) as H10.
  pose proof (H c_gender) as H11. pose proof (H c_age) as H12.
  pose proof (H c_postal_code) as H13. pose proof (H c_language) as H14.
  pose proof (H c_country) as H15. pose proof (H c_city) as H16.
  pose proof (H c_region) as H17. pose proof (H c_auto_reminder) as H18.
  pose proof (H c_country_code) as H19. pose proof (H c_is_deleted) as H20.
  pose proof (H c_date_created) as H21. pose proof (H c_last_updated) as H22.
  clear H. cbn in *.
  repeat match goal with
         | E : VStr _ = VStr _ |- _ => injection E as E; subst
         | E : VInt _ = VInt _ |- _ => injection E as E; subst
         | E : VBool _ = VBool _ |- _ => injection E as E; subst
         end.
  reflexivity.
Qed.

Lemma put_customer_reads_country_code customer customer_instance now db :
  read c_country_code (fst (put_customer customer customer_instance now db))
  = read c_country_code customer_instance.
Proof. unfold put_customer, from_orm. cbn [fst]. skip_steps. reflexivity. Qed.

Lemma put_customer_reads_region customer customer_instance now db :
  read c_region (fst (put_customer customer customer_instance now db))
  = default (default (read c_region customer_instance)
               (supplied_str (customer_schemas.region customer)))
      (supplied_str (customer_schemas.country_code customer)).
Proof.
  unfold put_customer, from_orm. cbn [fst]. skip_steps.
  erewrite read_if_str_eq by (cbn [read]; reflexivity).
  erewrite read_if_str_eq by (skip_steps; cbn [read]; reflexivity).
  skip_steps. reflexivity.
Qed.

Lemma put_customer_reads_last_updated customer customer_instance now db :
  read c_last_updated (fst (put_customer customer customer_instance now db)) = VInt now.
Proof. reflexivity. Qed.

(** [put_customer] is idempotent: the same request at the same time, put
    again on the customer it returned, returns that customer again. *)
Theorem put_customer_idempotent customer customer_instance now db db' :
  fst (put_customer customer
         (fst (put_customer customer customer_instance now db)) now db')
  = fst (put_customer customer customer_instance now db).
Proof.
  apply read_ext. intros c.
  destruct (column_eqb c c_region) eqn:Er;
    [destruct c; try discriminate Er|
     destruct (column_eqb c c_country_code) eqn:Ec;
       [destruct c; try discriminate Ec|
        destruct (column_eqb c c_last_updated) eqn:El;
          [destruct c; try discriminate El|]]].
  - rewrite !put_customer_reads_region.
    destruct (supplied_str (customer_schemas.country_code customer));
      destruct (supplied_str (customer_schemas.region customer)); reflexivity.
  - rewrite !put_customer_reads_country_code. reflexivity.
  - rewrite !put_customer_reads_last_updated. reflexivity.
  - assert (Hr : c <> c_region) by (intros ->; discriminate Er).
    assert (Hc : c <> c_country_code) by (intros ->; discriminate Ec).
    assert (Hl : c <> c_last_updated) by (intros ->; discriminate El).
    rewrite (put_customer_frame customer _ now db' c Hr Hc Hl).
    rewrite (put_customer_frame customer customer_instance now db c Hr Hc Hl).
    destruct (supplied customer c); reflexivity.
Qed.

End customer_coverage.

(** ** Creating customers and their extra information *)

Module service_coverage.
Import customer_models customer_scenarios customer_properties customer_services
  service_scenarios.

(** *** [add_customer] *)

Lemma existsb_id_fresh new_id db :
  ~ In new_id (map id db) -> existsb (fun r => String.eqb (id r) new_id) db = false.
Proof.
  intros H. destruct (existsb _ db) eqn:E; [|reflexivity].
  apply existsb_exists in E. destruct E as [r [Hr Heq]].
  apply String.eqb_eq in Heq. exfalso. apply H. rewrite <- Heq. apply in_map, Hr.
Qed.

Lemma find_app_none {A} (p : A -> bool) l x :
  List.find p l = None -> List.find p (l ++ [x]) = if p x then Some x else None.
Proof.
  induction l as [|y l IH]; simpl; [reflexivity|].
  destruct (p y); [discriminate|]. exact IH.
Qed.

Lemma find_app_some {A} (p : A -> bool) l l' y :
  List.find p l = Some y -> List.find p (l ++ l') = Some y.
Proof.
  induction l as [|z l IH]; simpl; [discriminate|].
  destruct (p z); [trivial|]. exact IH.
Qed.

(** A customer added with an id no row has, and a short id no row has, is
    the customer [get_customer_by_id] returns for that short id; its row is
    appended, it belongs to the organization given and is not deleted. *)
Theorem add_customer_then_get new_id short_id created updated customer organization_id db :
  ~ In new_id (map id db) ->
  (forall r, In r db -> customer_id r <> short_id) ->
  exists c,
    add_customer new_id short_id created updated customer organization_id db
    = (Stored c, (db ++ [c])%list)
    /\ get_customer_by_id short_id (db ++ [c]) = Ok c
    /\ customer_models.organization_id c = organization_id
    /\ is_deleted c = false
    /\ date_created c = created /\ last_updated c = updated.
Proof.
  intros Hfresh Hshort.
  exists (new_customer new_id short_id created updated customer organization_id).
  split; [|split; [|repeat split]].
  - unfold add_customer. rewrite (existsb_id_fresh _ _ Hfresh). reflexivity.
  - unfold get_customer_by_id, from_orm. rewrite find_app_none.
    + cbn [customer_id new_customer]. rewrite String.eqb_refl. reflexivity.
    + destruct (List.find _ db) as [r|] eqn:Hf; [|reflexivity].
      apply find_some in Hf. destruct Hf as [Hin Heq]. apply String.eqb_eq in Heq.
      exfalso. exact (Hshort r Hin Heq).
Qed.

Lemma add_customer_then_get_witness :
  exists c,
    add_customer "5" "K5" 7 8 new_jo "org1" [jane; jan; bob; amy]
    = (Stored c, ([jane; jan; bob; amy] ++ [c])%list)
    /\ get_customer_by_id "K5" ([jane; jan; bob; amy] ++ [c]) = Ok c
    /\ customer_models.organization_id c = "org1"
    /\ is_deleted c = false
    /\ date_created c = 7 /\ last_updated c = 8.
Proof.
  apply (add_customer_then_get "5" "K5" 7 8 new_jo "org1" [jane; jan; bob; amy]).
  - simpl. intuition discriminate.
  - simpl. intros r [<-|[<-|[<-|[<-|[]]]]]; discriminate.
Defined.

(** [add_customer] does not look at the short ids in use: when a row has
    the short id already, the customer is added all the same and
    [get_customer_by_id] goes on returning the earlier customer. More
    generally no lookup that succeeded changes its answer. *)
Theorem add_customer_keeps_lookups
    new_id short_id created updated customer organization_id db customer_id old :
  get_customer_by_id customer_id db = Ok old ->
  get_customer_by_id customer_id
    (snd (add_customer new_id short_id created updated customer organization_id db))
  = Ok old.
Proof.
  unfold get_customer_by_id, add_customer, from_orm. intros H.
  destruct (List.find _ db) as [c|] eqn:Hf; [|discriminate].
  destruct (existsb _ db); cbn [snd].
  - rewrite Hf. exact H.
  - rewrite (find_app_some _ _ _ _ Hf). exact H.
Qed.

Lemma add_customer_keeps_lookups_witness :
  get_customer_by_id "K9"
    (snd (add_customer "5" "K9" 7 8 new_jo "org1" [jane; jan; bob; amy]))
  = Ok jane.
Proof.
  apply (add_customer_keeps_lookups "5" "K9" 7 8 new_jo "org1" [jane; jan; bob; amy]
           "K9" jane).
  vm_compute. reflexivity.
Defined.

Lemma order_by_newest_last c l x :
  (forall r, In r l -> desc c r x = false) ->
  order_by (desc c) (l ++ [x]) = x :: order_by (desc c) l.
Proof.
  induction l as [|a l IH]; intros H; simpl; [reflexivity|].
  rewrite IH by (intros r Hr; apply H; right; exact Hr).
  simpl. rewrite (H a (or_introl eq_refl)). reflexivity.
Qed.

Lemma live_customers_app organization_id db x :
  live_customers organization_id (db ++ [x])
  = (live_customers organization_id db ++ live_customers organization_id [x])%list.
Proof. unfold live_customers. apply List.filter_app. Qed.

(** A customer added with a creation time later than that of every row is
    the first customer of the first page of its organization, ahead of the
    customers the page showed before. *)
Theorem add_customer_then_fetch
    new_id short_id created updated customer organization_id size db :
  ~ In new_id (map id db) ->
  (forall r, In r db -> date_created r < created) ->
  fetch_customers organization_id 0 (S size)
    (snd (add_customer new_id short_id created updated customer organization_id db))
  = new_customer new_id short_id created updated customer organization_id
    :: fetch_customers organization_id 0 size db.
Proof.
  intros Hfresh Hnew. unfold add_customer.
  rewrite (existsb_id_fresh _ _ Hfresh). cbn [snd].
  rewrite !fetch_customers_page, live_customers_app.
  assert (Hx : live_customers organization_id
                 [new_customer new_id short_id created updated customer organization_id]
               = [new_customer new_id short_id created updated customer organization_id]).
  { unfold live_customers. cbn [List.filter customer_models.organization_id is_deleted new_customer negb andb].
    rewrite String.eqb_refl. reflexivity. }
  rewrite Hx, order_by_newest_last.
  - reflexivity.
  - intros r Hr. apply In_live_customers in Hr. destruct Hr as [Hr _].
    unfold desc. cbn [read value_leb date_created new_customer].
    apply Z.leb_gt. apply Hnew, Hr.
Qed.

Lemma add_customer_then_fetch_witness :
  fetch_customers "org1" 0 2
    (snd (add_customer "5" "K5" 7 8 new_jo "org1" [jane; jan; bob; amy]))
  = new_customer "5" "K5" 7 8 new_jo "org1"
    :: fetch_customers "org1" 0 1 [jane; jan; bob; amy].
Proof.
  apply (add_customer_then_fetch "5" "K5" 7 8 new_jo "org1" 1 [jane; jan; bob; amy]).
  - simpl. intuition discriminate.
  - simpl. intros r [<-|[<-|[<-|[<-|[]]]]]; reflexivity.
Defined.

End service_coverage.

Module other_info_coverage.
Import customer_services service_scenarios.
Import other_information.

(** *** [add_other_info] and [get_other_customer_info] *)

Lemma existsb_other_fresh i (db : list OtherInformation) :
  ~ In i (map id db) -> existsb (fun r => String.eqb (id r) i) db = false.
Proof.
  intros H. destruct (existsb _ db) eqn:E; [|reflexivity].
  apply existsb_exists in E. destruct E as [r [Hr Heq]].
  apply String.eqb_eq in Heq. exfalso. apply H. rewrite <- Heq. apply in_map, Hr.
Qed.

(** The loop stores every row when the ids it generates are new to the
    table and differ from one another. *)
Lemma add_other_info_from_fresh uuid l : forall k customer_id res db,
  (forall i, (i < List.length l)%nat -> ~ In (uuid (k + i)%nat) (map id db)) ->
  (forall i j, (i < j < List.length l)%nat -> uuid (k + i)%nat <> uuid (k + j)%nat) ->
  add_other_info_from uuid k l customer_id res db
  = (Stored (res ++ other_rows uuid k l customer_id)%list,
     (db ++ other_rows uuid k l customer_id)%list).
Proof.
  induction l as [|o l IH]; intros k customer_id res db Hfresh Hdistinct.
  - simpl. unfold other_from_orm. rewrite map_id, !app_nil_r. reflexivity.
  - cbn [add_other_info_from other_rows].
    assert (H0 : ~ In (uuid k) (map id db)).
    { specialize (Hfresh 0%nat). rewrite Nat.add_0_r in Hfresh. apply Hfresh. simpl. lia. }
    rewrite (existsb_other_fresh _ _ H0).
    rewrite IH.
    + rewrite <- !app_assoc. reflexivity.
    + intros i Hi.
      replace (S k + i)%nat with (k + S i)%nat by lia.
      rewrite map_app, in_app_iff. cbn [map In id].
      intros [H|[H|[]]].
      * apply (Hfresh (S i)); [simpl; lia | exact H].
      * apply (Hdistinct 0%nat (S i)); [simpl; lia|].
        rewrite Nat.add_0_r. exact H.
    + intros i j Hij.
      replace (S k + i)%nat with (k + S i)%nat by lia.
      replace (S k + j)%nat with (k + S j)%nat by lia.
      apply Hdistinct. simpl. lia.
Qed.

Lemma other_rows_entries uuid l : forall k customer_id,
  map entry_of (other_rows uuid k l customer_id) = l.
Proof.
  induction l as [|o l IH]; intros k customer_id; simpl; [reflexivity|].
  rewrite IH. destruct o. reflexivity.
Qed.

Lemma other_rows_customer uuid l : forall k customer_id r,
  In r (other_rows uuid k l customer_id) -> other_information.customer_id r = customer_id.
Proof.
  induction l as [|o l IH]; intros k customer_id r; simpl; [contradiction|].
  intros [<-|H]; [reflexivity | eapply IH, H].
Qed.

Lemma filter_all {A} (p : A -> bool) l :
  (forall x, In x l -> p x = true) -> List.filter p l = l.
Proof.
  induction l as [|x l IH]; simpl; intros H; [reflexivity|].
  rewrite (H x (or_introl eq_refl)), IH; [reflexivity|].
  intros y Hy. apply H. right. exact Hy.
Qed.

Lemma filter_none {A} (p : A -> bool) l :
  (forall x, In x l -> p x = false) -> List.filter p l = [].
Proof.
  induction l as [|x l IH]; simpl; intros H; [reflexivity|].
  rewrite (H x (or_introl eq_refl)). apply IH.
  intros y Hy. apply H. right. exact Hy.
Qed.

(** When the ids generated are new to the table and differ from one
    another, [add_other_info] stores one row for each entry, in the order of
    the entries and with their keys and values as given, repeated keys
    included; the rows are appended to the table and returned. *)
Theorem add_other_info_stores uuid list_other_info customer_id db :
  (forall i, (i < List.length list_other_info)%nat -> ~ In (uuid i) (map id db)) ->
  (forall i j, (i < j < List.length list_other_info)%nat -> uuid i <> uuid j) ->
  exists rows,
    add_other_info uuid list_other_info customer_id db = (Stored rows, (db ++ rows)%list)
    /\ map entry_of rows = list_other_info
    /\ (forall r, In r rows -> other_information.customer_id r = customer_id).
Proof.
  intros Hfresh Hdistinct. exists (other_rows uuid 0 list_other_info customer_id).
  split; [|split].
  - unfold add_other_info. apply (add_other_info_from_fresh uuid list_other_info 0).
    + exact Hfresh.
    + exact Hdistinct.
  - apply other_rows_entries.
  - apply other_rows_customer.
Qed.

Lemma zeros_length n : String.length (zeros n) = S n.
Proof. induction n as [|n IH]; simpl; [reflexivity | rewrite IH; reflexivity]. Qed.

Lemma zeros_inj i j : zeros i = zeros j -> i = j.
Proof.
  intros H. apply (f_equal String.length) in H. rewrite !zeros_length in H. lia.
Qed.

Lemma add_other_info_stores_witness :
  exists rows,
    add_other_info zeros [colour "red"; colour "blue"] "K9" []
    = (Stored rows, ([] ++ rows)%list)
    /\ map entry_of rows = [colour "red"; colour "blue"]
    /\ (forall r, In r rows -> other_information.customer_id r = "K9").
Proof.
  apply (add_other_info_stores zeros [colour "red"; colour "blue"] "K9" []).
  - intros i _ H. simpl in H. exact H.
  - intros i j Hij H. apply zeros_inj in H. lia.
Defined.

(** After [add_other_info] for a customer, under the same conditions,
    [get_other_customer_info] returns for that customer what it returned
    before followed by the rows added, and for any other customer what it
    returned before. *)
Theorem other_info_round_trip uuid list_other_info customer_id db :
  (forall i, (i < List.length list_other_info)%nat -> ~ In (uuid i) (map id db)) ->
  (forall i j, (i < j < List.length list_other_info)%nat -> uuid i <> uuid j) ->
  get_other_customer_info customer_id
    (snd (add_other_info uuid list_other_info customer_id db))
  = (get_other_customer_info customer_id db
     ++ other_rows uuid 0 list_other_info customer_id)%list
  /\ forall other, other <> customer_id ->
       get_other_customer_info other
         (snd (add_other_info uuid list_other_info customer_id db))
       = get_other_customer_info other db.
Proof.
  intros Hfresh Hdistinct. unfold add_other_info.
  rewrite (add_other_info_from_fresh uuid list_other_info 0 customer_id [] db
             Hfresh Hdistinct).
  cbn [snd]. unfold get_other_customer_info, other_from_orm. split.
  - rewrite !map_id, List.filter_app. f_equal. apply filter_all.
    intros r Hr. apply String.eqb_eq. eapply other_rows_customer, Hr.
  - intros other Hne. rewrite !map_id, List.filter_app.
    rewrite (filter_none _ (other_rows uuid 0 list_other_info customer_id)).
    + apply app_nil_r.
    + intros r Hr. apply String.eqb_neq.
      rewrite (other_rows_customer _ _ _ _ _ Hr). congruence.
Qed.

Lemma other_info_round_trip_witness :
  get_other_customer_info "K9"
    (snd (add_other_info zeros [colour "red"; colour "blue"] "K9" []))
  = (get_other_customer_info "K9" []
     ++ other_rows zeros 0 [colour "red"; colour "blue"] "K9")%list
  /\ forall other, other <> "K9" ->
       get_other_customer_info other
         (snd (add_other_info zeros [colour "red"; colour "blue"] "K9" []))
       = get_other_customer_info other [].
Proof.
  apply (other_info_round_trip zeros [colour "red"; colour "blue"] "K9" []).
  - intros i _ H. simpl in H. exact H.
  - intros i j Hij H. apply zeros_inj in H. lia.
Defined.

Lemma other_rows_app uuid l1 : forall k l2 customer_id,
  other_rows uuid k (l1 ++ l2) customer_id
  = (other_rows uuid k l1 customer_id
     ++ other_rows uuid (k + List.length l1) l2 customer_id)%list.
Proof.
  induction l1 as [|o l1 IH]; intros k l2 customer_id; simpl.
  - rewrite Nat.add_0_r. reflexivity.
  - rewrite IH. replace (S k + List.length l1)%nat with (k + S (List.length l1))%nat by lia.
    reflexivity.
Qed.

(** The loop on a list runs its first entries, when their ids are new and
    distinct, and goes on with the rest from the table they leave. *)
Lemma add_other_info_from_app uuid l1 : forall k l2 customer_id res db,
  (forall i, (i < List.length l1)%nat -> ~ In (uuid (k + i)%nat) (map id db)) ->
  (forall i j, (i < j < List.length l1)%nat -> uuid (k + i)%nat <> uuid (k + j)%nat) ->
  add_other_info_from uuid k (l1 ++ l2) customer_id res db
  = add_other_info_from uuid (k + List.length l1) l2 customer_id
      (res ++ other_rows uuid k l1 customer_id)%list
      (db ++ other_rows uuid k l1 customer_id)%list.
Proof.
  induction l1 as [|o l1 IH]; intros k l2 customer_id res db Hfresh Hdistinct.
  - simpl. rewrite Nat.add_0_r, !app_nil_r. reflexivity.
  - cbn [app add_other_info_from other_rows].
    assert (H0 : ~ In (uuid k) (map id db)).
    { specialize (Hfresh 0%nat). rewrite Nat.add_0_r in Hfresh. apply Hfresh. simpl. lia. }
    rewrite (existsb_other_fresh _ _ H0).
    rewrite IH.
    + rewrite <- !app_assoc. cbn [List.length].
      replace (S k + List.length l1)%nat with (k + S (List.length l1))%nat by lia.
      reflexivity.
    + intros i Hi.
      replace (S k + i)%nat with (k + S i)%nat by lia.
      rewrite map_app, in_app_iff. cbn [map In id].
      intros [H|[H|[]]].
      * apply (Hfresh (S i)); [simpl; lia | exact H].
      * apply (Hdistinct 0%nat (S i)); [simpl; lia|].
        rewrite Nat.add_0_r. exact H.
    + intros i j Hij.
      replace (S k + i)%nat with (k + S i)%nat by lia.
      replace (S k + j)%nat with (k + S j)%nat by lia.
      apply Hdistinct. simpl. lia.
Qed.

(** [add_other_info] is not all or nothing: each entry is committed on its
    own, so when the id generated for an entry is taken, by a row of the
    table or by a row just added, the call raises and the rows of the
    entries before it stay in the table. *)
Theorem add_other_info_keeps_rows_before_failure uuid before entry after customer_id db :
  (forall i, (i < List.length before)%nat -> ~ In (uuid i) (map id db)) ->
  (forall i j, (i < j < List.length before)%nat -> uuid i <> uuid j) ->
  In (uuid (List.length before))
     (map id (db ++ other_rows uuid 0 before customer_id)) ->
  add_other_info uuid (before ++ entry :: after) customer_id db
  = (IntegrityError, (db ++ other_rows uuid 0 before customer_id)%list).
Proof.
  intros Hfresh Hdistinct Htaken. unfold add_other_info.
  rewrite (add_other_info_from_app uuid before 0 (entry :: after) customer_id [] db
             Hfresh Hdistinct).
  cbn [add_other_info_from Nat.add].
  assert (E : existsb (fun r => String.eqb (id r) (uuid (List.length before)))
                (db ++ other_rows uuid 0 before customer_id) = true).
  { apply existsb_exists. apply in_map_iff in Htaken.
    destruct Htaken as [r [Hid Hr]]. exists r. split; [exact Hr|].
    apply String.eqb_eq. exact Hid. }
  rewrite E. reflexivity.
Qed.

Lemma add_other_info_keeps_rows_before_failure_witness :
  add_other_info (fun _ => "7") ([colour "red"] ++ colour "blue" :: [colour "green"]) "K9" []
  = (IntegrityError, ([] ++ other_rows (fun _ => "7") 0 [colour "red"] "K9")%list).
Proof.
  apply (add_other_info_keeps_rows_before_failure (fun _ => "7")
           [colour "red"] (colour "blue") [colour "green"] "K9" []).
  - intros i _ H. simpl in H. exact H.
  - simpl. intros i j Hij. lia.
  - simpl. left. reflexivity.
Defined.

End other_info_coverage.
